(** * HARP-Parser: a shallow embedding of [harp_parser.py]

    The development follows the Python source top-down:

    - a small model of the Python run time the parser relies on
      (exceptions, [bytes] indexing and slicing, [dict] lookup,
      [str] repetition, [struct.unpack] with a little-endian format);
    - [PayloadLookup]: the [DATA_CHARS] table, [__get_data_char] and
      [get_payload_string];
    - [HarpParser]: [__unpack_message_types_to_process] and the scanning
      and decoding loop of [to_list];
    - the properties of the specification, stated on these definitions.

    File input ([__read_data]) is outside the model: [to_list] takes the
    bytes of the file.  The [lru_cache] around [get_payload_string] only
    memoises a pure function and is not modelled. *)

From Stdlib Require Import Floats Uint63.
From Stdlib Require Import ZArith List Bool Lia String Ascii Strings.Byte Permutation.
Import ListNotations.
Open Scope Z_scope.

(* ================================================================== *)
(** * Python run-time model *)
(* ================================================================== *)

(** Exceptions the parser can raise.  [struct_error] is [struct.error]. *)
Inductive exn : Set :=
| IndexError
| TypeError
| ZeroDivisionError
| KeyError
| struct_error.

(** A Python computation either returns a value or raises. *)
Inductive outcome (A : Type) : Type :=
| Returns (a : A)
| Raises (e : exn).
Arguments Returns {A} a.
Arguments Raises {A} e.

Definition bind {A B : Type} (c : outcome A) (k : A -> outcome B) : outcome B :=
  match c with
  | Returns a => k a
  | Raises e => Raises e
  end.

Declare Scope py_scope.
Delimit Scope py_scope with py.
Notation "x <- c ;; k" := (bind c (fun x => k))
  (at level 61, c at next level, right associativity) : py_scope.
Open Scope py_scope.

(** Values that end up in an output row: Python [int]s and [float]s. *)
Inductive pyval : Set :=
| PyInt (z : Z)
| PyFloat (f : float).

(** [bytes] objects. Indexing one yields an [int] in [0, 255]. *)
Definition bytes := list byte.

Definition int_of_byte (b : byte) : Z := Z.of_N (Byte.to_N b).

Definition len {A : Type} (l : list A) : Z := Z.of_nat (List.length l).

(** [l[i]]: negative indices count from the end, anything outside the
    sequence raises [IndexError]. *)
Definition getitem {A : Type} (l : list A) (i : Z) : outcome A :=
  let j := if i <? 0 then i + len l else i in
  if (0 <=? j) && (j <? len l) then
    match nth_error l (Z.to_nat j) with
    | Some x => Returns x
    | None => Raises IndexError
    end
  else Raises IndexError.

Definition bytes_getitem (data : bytes) (i : Z) : outcome Z :=
  b <- getitem data i ;; Returns (int_of_byte b).

(** Slice bounds are clamped to the sequence, never an error. *)
Definition clamp_index (n i : Z) : Z :=
  if i <? 0 then Z.max 0 (i + n) else Z.min i n.

(** [l[start:stop]] *)
Definition slice {A : Type} (l : list A) (start stop : Z) : list A :=
  let a := clamp_index (len l) start in
  let b := clamp_index (len l) stop in
  firstn (Z.to_nat (b - a)) (skipn (Z.to_nat a) l).

(** [l[start::]] *)
Definition slice_from {A : Type} (l : list A) (start : Z) : list A :=
  skipn (Z.to_nat (clamp_index (len l) start)) l.

(** Truth value of an [int]. *)
Definition truthy (z : Z) : bool := negb (z =? 0).

(** [a // b] on [int]s: floor division, [ZeroDivisionError] on [b = 0]. *)
Definition floordiv (a b : Z) : outcome Z :=
  if b =? 0 then Raises ZeroDivisionError else Returns (a / b).

(** [d[k]] on a [dict] given by its items. *)
Fixpoint dict_getitem {V : Type} (d : list (Z * V)) (k : Z) : outcome V :=
  match d with
  | [] => Raises KeyError
  | (k', v) :: d' => if k =? k' then Returns v else dict_getitem d' k
  end.

(** [s * n] on [str]: [n] copies of [s], none when [n <= 0]. *)
Fixpoint str_repeat (s : string) (n : nat) : string :=
  match n with
  | O => EmptyString
  | S n' => (s ++ str_repeat s n')%string
  end.

Definition str_mul (s : string) (n : Z) : string :=
  str_repeat s (Z.to_nat n).

(** [x in l] where [l] is a list of [int]s or [None]; [x in None] raises
    [TypeError]. *)
Definition py_in (x : Z) (l : option (list Z)) : outcome bool :=
  match l with
  | None => Raises TypeError
  | Some l => Returns (existsb (Z.eqb x) l)
  end.

(** [float(n)] for an [int] [n] with [|n| < 2^63]; the conversion is exact
    below [2^53], which covers the [uint32] and [uint16] values the parser
    converts. *)
Definition float_of_int (z : Z) : float :=
  if z <? 0 then PrimFloat.opp (PrimFloat.of_uint63 (Uint63.of_Z (- z)))
  else PrimFloat.of_uint63 (Uint63.of_Z z).

(** [float(v)] *)
Definition py_float (v : pyval) : float :=
  match v with
  | PyInt z => float_of_int z
  | PyFloat f => f
  end.

(* ------------------------------------------------------------------ *)
(** ** [struct.unpack] for little-endian formats *)
(* ------------------------------------------------------------------ *)

(** Little-endian value of a byte string: byte [i] has weight [256^i]. *)
Fixpoint le_uint (bs : bytes) : Z :=
  match bs with
  | [] => 0
  | b :: bs' => int_of_byte b + 256 * le_uint bs'
  end.

(** Two's complement reading of an unsigned [bits]-bit value. *)
Definition to_signed (bits : Z) (u : Z) : Z :=
  if u <? 2 ^ (bits - 1) then u else u - 2 ^ bits.

(** IEEE 754 binary32 bit pattern, as a [spec_float]. *)
Definition binary32_to_spec (w : Z) : spec_float :=
  let sign := Z.testbit w 31 in
  let e := Z.land (Z.shiftr w 23) 255 in
  let m := Z.land w 8388607 in
  if e =? 255 then
    if m =? 0 then S754_infinity sign else S754_nan
  else if e =? 0 then
    match m with
    | Zpos p => S754_finite sign p (-149)
    | _ => S754_zero sign
    end
  else
    match 8388608 + m with
    | Zpos p => S754_finite sign p (e - 150)
    | _ => S754_zero sign
    end.

(** Standard size of a format character; only the characters of
    [DATA_CHARS] and of the timestamp prefix are known to the model. *)
Definition code_size (c : ascii) : option Z :=
  match c with
  | "B"%char | "b"%char => Some 1
  | "H"%char | "h"%char => Some 2
  | "I"%char | "i"%char | "f"%char => Some 4
  | "Q"%char | "q"%char => Some 8
  | _ => None
  end.

Definition code_signed (c : ascii) : bool :=
  match c with
  | "b"%char | "h"%char | "i"%char | "q"%char => true
  | _ => false
  end.

Definition code_float (c : ascii) : bool :=
  match c with
  | "f"%char => true
  | _ => false
  end.

(** The value one format character reads from its bytes. *)
Definition unpack_code (c : ascii) (chunk : bytes) : pyval :=
  if code_float c then PyFloat (SF2Prim (binary32_to_spec (le_uint chunk)))
  else if code_signed c then PyInt (to_signed (8 * len chunk) (le_uint chunk))
  else PyInt (le_uint chunk).

(** [struct.calcsize] of the characters after the byte-order mark. *)
Fixpoint calcsize (codes : string) : outcome Z :=
  match codes with
  | EmptyString => Returns 0
  | String c rest =>
      match code_size c with
      | None => Raises struct_error
      | Some n => s <- calcsize rest ;; Returns (n + s)
      end
  end.

Fixpoint unpack_codes (codes : string) (buffer : bytes) : list pyval :=
  match codes with
  | EmptyString => []
  | String c rest =>
      match code_size c with
      | None => []
      | Some n =>
          unpack_code c (firstn (Z.to_nat n) buffer)
            :: unpack_codes rest (skipn (Z.to_nat n) buffer)
      end
  end.

(** [struct.unpack(format, buffer)] for a format that starts with ["<"]
    (little-endian, standard sizes, no padding) and goes on with the
    characters of [code_size]: the buffer must have exactly the size the
    format describes, else [struct.error].  [get_payload_string] builds no
    other format; the model does not cover native byte order, repeat counts
    or other characters, and answers [struct.error] on them. *)
Definition struct_unpack (format : string) (buffer : bytes) : outcome (list pyval) :=
  match format with
  | String "<"%char codes =>
      size <- calcsize codes ;;
      if size =? len buffer then Returns (unpack_codes codes buffer)
      else Raises struct_error
  | _ => Raises struct_error
  end.

(* ================================================================== *)
(** * [class PayloadLookup] *)
(* ================================================================== *)

Module PayloadLookup.

Definition DATA_CHARS : list (Z * string) :=
  [ (0x01, "B"%string)    (* unsigned 1 *)
  ; (0x81, "b"%string)    (* signed 1 *)
  ; (0x02, "H"%string)    (* unsigned 2 *)
  ; (0x82, "h"%string)    (* signed 2 *)
  ; (0x04, "I"%string)    (* unsigned 4 *)
  ; (0x84, "i"%string)    (* signed 4 *)
  ; (0x08, "Q"%string)    (* unsigned 8 *)
  ; (0x88, "q"%string)    (* signed 8 *)
  ; (0x44, "f"%string)    (* float 4 *)
  ].

(** The key [(payload & 0xC0) | (payload & 0x0F)]. *)
Definition masked_key (payload : Z) : Z :=
  Z.lor (Z.land payload 0xC0) (Z.land payload 0x0F).

Definition get_data_char (payload : Z) : outcome string :=
  dict_getitem DATA_CHARS (masked_key payload).

Definition get_payload_string (has_timestamp : Z) (count : Z) (payload : Z)
  : outcome string :=
  char_code <- get_data_char payload ;;
  if truthy has_timestamp then
    Returns ("<IH" ++ str_mul char_code count)%string
  else
    Returns ("<" ++ str_mul char_code count)%string.

End PayloadLookup.

(* ================================================================== *)
(** * [class HarpParser] *)
(* ================================================================== *)

Module HarpParser.

Definition HAS_TIMESTAMP : Z := 0x10.
Definition SIZE_MASK : Z := 0x0F.

(** [32e-6]: the binary64 number nearest to 32/10^6 (see
    [MICROSECOND_TO_SECOND_nearest]). *)
Definition MICROSECOND_TO_SECOND : float := 0x1.0c6f7a0b5ed8dp-15%float.

Definition NAN : float := PrimFloat.nan.

(** The [return] sits inside the last [if]: without [processEvent] the
    function falls off its end and yields [None]. *)
Definition unpack_message_types_to_process
  (processRead processWrite processEvent : bool) : option (list Z) :=
  let types_to_process := [] in
  let types_to_process :=
    if processRead then types_to_process ++ [1] else types_to_process in
  let types_to_process :=
    if processWrite then types_to_process ++ [2] else types_to_process in
  if processEvent then Some (types_to_process ++ [3]) else None.

(** Body of [if message_type in types_to_process:], up to the row that is
    appended to [processed_data]. *)
Definition decode_message (message_type : Z) (message : bytes)
  : outcome (list pyval) :=
  message_address <- bytes_getitem message 2 ;;
  payload_type <- bytes_getitem message 4 ;;
  let payload := slice_from message 5 in
  let payload_has_timestamp := Z.land payload_type HAS_TIMESTAMP in
  payload_length <-
    floordiv (len payload - (if truthy payload_has_timestamp then 6 else 0))
             (Z.land payload_type SIZE_MASK) ;;
  format <- PayloadLookup.get_payload_string
              payload_has_timestamp payload_length payload_type ;;
  unpacked_data <- struct_unpack format payload ;;
  if truthy payload_has_timestamp then
    u0 <- getitem unpacked_data 0 ;;
    let seconds := py_float u0 in
    u1 <- getitem unpacked_data 1 ;;
    let microseconds := py_float u1 in
    let timestamp :=
      PrimFloat.add seconds (PrimFloat.mul microseconds MICROSECOND_TO_SECOND) in
    Returns ([PyInt message_type; PyInt message_address; PyFloat timestamp]
               ++ slice_from unpacked_data 2)
  else
    Returns ([PyInt message_type; PyInt message_address; PyFloat NAN]
               ++ unpacked_data).

(** What one iteration of the loop does with the frame it carved out. *)
Definition process_message (types_to_process : option (list Z))
  (message : bytes) (processed_data : list (list pyval))
  : outcome (list (list pyval)) :=
  message_type <- bytes_getitem message 0 ;;
  retained <- py_in message_type types_to_process ;;
  if retained then
    row <- decode_message message_type message ;;
    Returns (processed_data ++ [row])
  else Returns processed_data.

(** The [while (next_message_start < EOF)] loop, with the work done on each
    frame as a parameter.  [fuel] bounds the number of iterations; [None]
    means the bound was reached before the loop ended. *)
Section Scan.
Context {A : Type}.
Variable data : bytes.
Variable body : bytes -> A -> outcome A.

Fixpoint scan (fuel : nat) (next_message_start : Z) (acc : A)
  : option (outcome A) :=
  match fuel with
  | O => None
  | S fuel' =>
      if next_message_start <? len data then
        let message_start := next_message_start in
        match bytes_getitem data (message_start + 1) with
        | Raises e => Some (Raises e)
        | Returns length_byte =>
            let message_end := message_start + length_byte + 1 in
            let next_message_start := message_end + 1 in
            let message := slice data message_start message_end in
            match body message acc with
            | Raises e => Some (Raises e)
            | Returns acc' => scan fuel' next_message_start acc'
            end
        end
      else Some (Returns acc)
  end.

End Scan.

(** Every iteration moves the cursor by at least two bytes, so the loop
    runs at most [len data] times. *)
Definition enough_fuel (data : bytes) : nat := S (List.length data).

Definition to_list_loop (data : bytes) (types_to_process : option (list Z))
  : option (outcome (list (list pyval))) :=
  scan data (process_message types_to_process) (enough_fuel data) 0 [].

Definition to_list (data : bytes) (processRead processWrite processEvent : bool)
  : option (outcome (list (list pyval))) :=
  let types_to_process :=
    unpack_message_types_to_process processRead processWrite processEvent in
  to_list_loop data types_to_process.

(** The two list comprehensions at the head of [to_dataframe]:
    [row[:3] if len(row) >= 3 else [None]*3] and
    [row[3:] if len(row) > 3 else []].  A cell is [None] for Python's
    [None].  The [DataFrame] built from them is outside the model. *)
Definition to_dataframe_messages (data : list (list pyval))
  : list (list (option pyval)) :=
  map (fun row =>
         if len row >=? 3 then map Some (slice row 0 3) else repeat None 3)
      data.

Definition to_dataframe_payloads (data : list (list pyval))
  : list (list pyval) :=
  map (fun row => if len row >? 3 then slice_from row 3 else []) data.

End HarpParser.

(* ================================================================== *)
(** * Vocabulary of the specification *)
(* ================================================================== *)

(** Running a loop body over a list of frames, stopping at the first
    exception. *)
Fixpoint foldM {A B : Type} (body : B -> A -> outcome A) (l : list B) (acc : A)
  : outcome A :=
  match l with
  | [] => Returns acc
  | x :: l' => acc' <- body x acc ;; foldM body l' acc'
  end.

(** The frames the loop of [to_list] carves out, in the order it visits
    them: the same loop, run with a body that only records [message]. *)
Definition frames (data : bytes) : option (outcome (list bytes)) :=
  HarpParser.scan data (fun message acc => Returns (acc ++ [message]))
                  (HarpParser.enough_fuel data) 0 [].

(** The message type a row carries in its first field. *)
Definition row_type (row : list pyval) : option Z :=
  match row with
  | PyInt t :: _ => Some t
  | _ => None
  end.

(** Whether a row belongs to one of the given categories. *)
Definition row_in (types : list Z) (row : list pyval) : bool :=
  match row_type row with
  | Some t => existsb (Z.eqb t) types
  | None => false
  end.

(** The shape of an output row: message type, address, timestamp, then
    the elements. *)
Definition row_shape (types : list Z) (row : list pyval) : Prop :=
  exists (t a : Z) (ts : float) (elements : list pyval),
    row = PyInt t :: PyInt a :: PyFloat ts :: elements
    /\ In t types /\ 0 <= a <= 255.

Module Spec.

(** ** Type table (spec section 4.1) *)

Inductive numeric_class : Set := Unsigned | Signed | Float.

(** The nine (class, width) pairs the specification lists. *)
Definition type_table : list (numeric_class * Z) :=
  [ (Unsigned, 1); (Unsigned, 2); (Unsigned, 4); (Unsigned, 8)
  ; (Signed, 1); (Signed, 2); (Signed, 4); (Signed, 8)
  ; (Float, 4) ].

(** Bits 6-7 of the payload type byte, as the comments of [DATA_CHARS]
    pair them with the classes. *)
Definition class_bits (c : numeric_class) : Z :=
  match c with
  | Unsigned => 0x00
  | Float => 0x40
  | Signed => 0x80
  end.

Definition table_key (e : numeric_class * Z) : Z :=
  Z.lor (class_bits (fst e)) (snd e).

(** Class of a [struct] format character. *)
Definition class_of_code (c : ascii) : numeric_class :=
  if code_float c then Float else if code_signed c then Signed else Unsigned.

(** ** Frame scanner (spec section 4.2)

    The recurrence in the words of the specification: from [next_start],
    either the scan is over ([next_start >= buffer length]) or a frame
    [(frame_start, frame_end)] is produced and the scan goes on from
    [frame_end + 1]. *)
Inductive recurrence (buffer : bytes) : Z -> list (Z * Z) -> Prop :=
| recurrence_stop (next_start : Z) :
    next_start >= len buffer ->
    recurrence buffer next_start []
| recurrence_frame (next_start length_field : Z) (rest : list (Z * Z)) :
    next_start < len buffer ->
    bytes_getitem buffer (next_start + 1) = Returns length_field ->
    recurrence buffer (next_start + length_field + 1 + 1) rest ->
    recurrence buffer next_start
      ((next_start, next_start + length_field + 1) :: rest).

(** The byte range [[frame_start, frame_end)] of a buffer. *)
Definition byte_range (buffer : bytes) (bounds : Z * Z) : bytes :=
  slice buffer (fst bounds) (snd bounds).

(** Frame starts strictly increase along the scan. *)
Fixpoint increasing_from (low : Z) (bounds : list (Z * Z)) : Prop :=
  match bounds with
  | [] => True
  | (frame_start, frame_end) :: rest =>
      low <= frame_start /\ frame_start < frame_end
      /\ increasing_from (frame_end + 1) rest
  end.

(** ** Frames on the wire

    A frame whose length byte counts the bytes that follow it, so that the
    scanner lands exactly on the byte after the frame. *)
Definition framed (f : bytes) : Prop :=
  bytes_getitem f 1 = Returns (len f - 2).

(** What the scanner hands to the decoder for such a frame: all of it but
    the trailing byte. *)
Definition frame_message (f : bytes) : bytes := removelast f.

Definition frame_type (f : bytes) : Z := int_of_byte (hd x00 f).

(** The row a frame decodes to. *)
Definition frame_row (f : bytes) : outcome (list pyval) :=
  HarpParser.decode_message (frame_type f) (frame_message f).

Definition retained (types : list Z) (f : bytes) : bool :=
  existsb (Z.eqb (frame_type f)) types.

(** ** Little-endian encoding, to state properties over value ranges *)

Definition byte_of_int (z : Z) : byte :=
  match Byte.of_N (Z.to_N (z mod 256)) with
  | Some b => b
  | None => x00
  end.

Fixpoint le_bytes (n : nat) (z : Z) : bytes :=
  match n with
  | O => []
  | S n' => byte_of_int z :: le_bytes n' (z / 256)
  end.

(** ** Values of the primitive types (spec section 4.3)

    What "little-endian" means for a field, said without the decoder: [z]
    is the unsigned value of a byte string when the byte at offset [i] is
    the digit of weight [256^i] of [z]. *)
Definition unsigned_value (chunk : bytes) (z : Z) : Prop :=
  0 <= z < 256 ^ len chunk
  /\ forall (i : nat) (b : byte),
       nth_error chunk i = Some b ->
       (z / 256 ^ Z.of_nat i) mod 256 = int_of_byte b.

(** [z] is the signed value of a byte string when it lies in the two's
    complement range of that many bits and is congruent to the unsigned
    value. *)
Definition signed_value (chunk : bytes) (z : Z) : Prop :=
  - 2 ^ (8 * len chunk - 1) <= z < 2 ^ (8 * len chunk - 1)
  /\ unsigned_value chunk (z mod 2 ^ (8 * len chunk)).

(** The number an IEEE 754 binary32 word [u] stands for, as a binary64
    number: sign in bit 31, biased exponent in bits 23-30, fraction in bits
    0-22; exponent 255 is an infinity or a NaN, exponent 0 a zero or a
    subnormal [fraction * 2^-149], any other exponent
    [(2^23 + fraction) * 2^(exponent - 150)]. *)
Definition binary32_float (u : Z) : float :=
  let negative := 2 ^ 31 <=? u in
  let exponent := (u / 2 ^ 23) mod 2 ^ 8 in
  let fraction := u mod 2 ^ 23 in
  let magnitude :=
    if exponent =? 255 then
      if fraction =? 0 then PrimFloat.infinity else PrimFloat.nan
    else if exponent =? 0 then
      Z.ldexp (PrimFloat.of_uint63 (Uint63.of_Z fraction)) (-149)
    else
      Z.ldexp (PrimFloat.of_uint63 (Uint63.of_Z (2 ^ 23 + fraction)))
              (exponent - 150) in
  if negative then PrimFloat.opp magnitude else magnitude.

(** The binary64 number [f] is exactly the integer [z >= 0]. *)
Definition represents (f : float) (z : Z) : Prop :=
  (z = 0 /\ Prim2SF f = S754_zero false)
  \/ exists (m : positive) (e : Z),
       Prim2SF f = S754_finite false m e /\ e <= 0 /\ Zpos m = z * 2 ^ (- e).

End Spec.

(* ================================================================== *)
(** * Properties *)
(* ================================================================== *)

Import HarpParser.

(* ------------------------------------------------------------------ *)
(** ** Type table *)
(* ------------------------------------------------------------------ *)

Section TypeTable.

Import PayloadLookup.

(** The lookup, tabulated on the masked key. *)
Lemma get_data_char_cases (pt : byte) :
  get_data_char (int_of_byte pt) =
    match masked_key (int_of_byte pt) with
    | 0x01 => Returns "B"%string
    | 0x81 => Returns "b"%string
    | 0x02 => Returns "H"%string
    | 0x82 => Returns "h"%string
    | 0x04 => Returns "I"%string
    | 0x84 => Returns "i"%string
    | 0x08 => Returns "Q"%string
    | 0x88 => Returns "q"%string
    | 0x44 => Returns "f"%string
    | _ => Raises KeyError
    end.
Proof. destruct pt; reflexivity. Qed.

(** A successful lookup yields a one-character format whose standard size
    is the width field of the payload type byte. *)
Lemma get_data_char_width (pt : byte) (s : string) :
  get_data_char (int_of_byte pt) = Returns s ->
  exists c, s = String c EmptyString
            /\ code_size c = Some (Z.land (int_of_byte pt) 0x0F)
            /\ 0 < Z.land (int_of_byte pt) 0x0F.
Proof.
  destruct pt; vm_compute; intros H; try discriminate;
    injection H as <-; eexists; repeat split.
Qed.

(** The lookup never raises anything but [KeyError]. *)
Lemma get_data_char_raises (pt : byte) (e : exn) :
  get_data_char (int_of_byte pt) = Raises e -> e = KeyError.
Proof.
  rewrite get_data_char_cases.
  destruct (masked_key (int_of_byte pt)) as [|p|p]; try congruence;
    repeat (destruct p as [p|p|]; try congruence).
Qed.

(** C2: the type-table lookup on the masked key
    [(payload_type & 0xC0) | (payload_type & 0x0F)] succeeds for exactly
    the nine keys of unsigned widths 1, 2, 4, 8, signed widths 1, 2, 4, 8
    and float width 4, and then returns the format character of that
    width, signedness and class; for every other payload type byte (0x48,
    float class with width 8, among them) it raises [KeyError], the
    [UnknownPayloadType] failure of the specification. *)
Theorem C2_type_table_lookup :
  (List.length Spec.type_table = 9%nat /\ NoDup (map Spec.table_key Spec.type_table))
  /\ (forall (pt : byte) (cls : Spec.numeric_class) (w : Z),
        In (cls, w) Spec.type_table ->
        masked_key (int_of_byte pt) = Spec.table_key (cls, w) ->
        exists c, get_data_char (int_of_byte pt) = Returns (String c EmptyString)
                  /\ code_size c = Some w
                  /\ Spec.class_of_code c = cls)
  /\ (forall pt : byte,
        ~ In (masked_key (int_of_byte pt)) (map Spec.table_key Spec.type_table) ->
        get_data_char (int_of_byte pt) = Raises KeyError)
  /\ (forall (pt : byte) (s : string),
        get_data_char (int_of_byte pt) = Returns s ->
        In (masked_key (int_of_byte pt)) (map Spec.table_key Spec.type_table))
  /\ masked_key 0x48 = 0x48
  /\ get_data_char 0x48 = Raises KeyError.
Proof.
  split; [ | split; [ | split; [ | split; [ | split ] ] ] ].
  - split; [ reflexivity | ].
    cbn. repeat constructor; cbn; intuition discriminate.
  - intros pt cls w Hin Hkey.
    cbn in Hin.
    repeat (destruct Hin as [Hin | Hin];
            [ injection Hin as <- <-;
              destruct pt; vm_compute in Hkey; try discriminate Hkey;
              eexists; repeat split
            | ]).
    contradiction.
  - intros pt Hnot.
    destruct pt; try reflexivity; exfalso; apply Hnot; vm_compute; tauto.
  - intros pt s H.
    destruct pt; vm_compute in H; try discriminate H; vm_compute; tauto.
  - reflexivity.
  - reflexivity.
Qed.

(** The lookup for a signed 16-bit payload with the timestamp flag. *)
Lemma C2_type_table_lookup_witness :
  exists c, get_data_char (int_of_byte x92) = Returns (String c EmptyString)
            /\ code_size c = Some 2
            /\ Spec.class_of_code c = Spec.Signed.
Proof.
  apply (proj1 (proj2 C2_type_table_lookup) x92 Spec.Signed 2).
  - cbn. tauto.
  - reflexivity.
Defined.

End TypeTable.

(* ------------------------------------------------------------------ *)
(** ** Category filter *)
(* ------------------------------------------------------------------ *)

Lemma len_nonneg {A : Type} (l : list A) : 0 <= len l.
Proof. unfold len. lia. Qed.

Lemma len_app {A : Type} (l1 l2 : list A) : len (l1 ++ l2) = len l1 + len l2.
Proof. unfold len. rewrite length_app. lia. Qed.

Lemma len_cons {A : Type} (x : A) (l : list A) : len (x :: l) = 1 + len l.
Proof. unfold len. cbn [List.length]. lia. Qed.

Lemma int_of_byte_range (b : byte) : 0 <= int_of_byte b <= 255.
Proof.
  unfold int_of_byte. pose proof (Byte.to_N_bounded b). lia.
Qed.

(** [l[i]] for an index inside the sequence. *)
Lemma getitem_nth {A : Type} (l : list A) (i : Z) (x : A) :
  0 <= i -> nth_error l (Z.to_nat i) = Some x -> getitem l i = Returns x.
Proof.
  intros Hi Hn. unfold getitem.
  assert (Hlt : (Z.to_nat i < List.length l)%nat)
    by (apply nth_error_Some; congruence).
  destruct (Z.ltb_spec i 0); [ lia | ].
  destruct (Z.leb_spec 0 i); [ | lia ].
  destruct (Z.ltb_spec i (len l)); [ | unfold len in *; lia ].
  cbn. now rewrite Hn.
Qed.

Lemma getitem_out {A : Type} (l : list A) (i : Z) :
  len l <= i -> getitem l i = Raises IndexError.
Proof.
  intros Hi. unfold getitem. pose proof (len_nonneg l).
  destruct (Z.ltb_spec i 0); [ lia | ].
  destruct (Z.ltb_spec i (len l)); [ lia | ].
  now rewrite andb_false_r.
Qed.

Lemma getitem_in {A : Type} (l : list A) (i : Z) :
  0 <= i < len l -> exists x, getitem l i = Returns x
                              /\ nth_error l (Z.to_nat i) = Some x.
Proof.
  intros Hi.
  destruct (nth_error l (Z.to_nat i)) as [x|] eqn:Hn.
  - exists x. split; [ apply getitem_nth; [ lia | assumption ] | reflexivity ].
  - apply nth_error_None in Hn. unfold len in Hi. lia.
Qed.

Lemma bytes_getitem_range (l : bytes) (i z : Z) :
  bytes_getitem l i = Returns z -> 0 <= z <= 255.
Proof.
  unfold bytes_getitem. destruct (getitem l i) as [b|e]; cbn; [ | discriminate ].
  intros [= <-]. apply int_of_byte_range.
Qed.

Lemma bytes_getitem_in (l : bytes) (i : Z) :
  0 <= i < len l ->
  exists b, bytes_getitem l i = Returns (int_of_byte b)
            /\ nth_error l (Z.to_nat i) = Some b.
Proof.
  intros Hi. destruct (getitem_in l i Hi) as (b & Hg & Hn).
  exists b. unfold bytes_getitem. now rewrite Hg.
Qed.

Lemma bytes_getitem_out (l : bytes) (i : Z) :
  len l <= i -> bytes_getitem l i = Raises IndexError.
Proof. intros Hi. unfold bytes_getitem. now rewrite getitem_out. Qed.

(** A successful read was inside the sequence (for an index from the
    front). *)
Lemma bytes_getitem_Returns_lt (l : bytes) (i z : Z) :
  0 <= i -> bytes_getitem l i = Returns z -> i < len l.
Proof.
  intros Hi H. destruct (Z.lt_ge_cases i (len l)) as [|Hge]; [ assumption | ].
  rewrite bytes_getitem_out in H by assumption. discriminate.
Qed.

(* ------------------------------------------------------------------ *)
(** ** The scanning loop *)
(* ------------------------------------------------------------------ *)

Section ScanFacts.

Context {A : Type}.
Variable data : bytes.

(** One iteration, spelled out. *)
Lemma scan_iteration (body : bytes -> A -> outcome A)
      (fuel : nat) (s length_byte : Z) (acc : A) :
  s < len data ->
  bytes_getitem data (s + 1) = Returns length_byte ->
  scan data body (S fuel) s acc =
    match body (slice data s (s + length_byte + 1)) acc with
    | Raises e => Some (Raises e)
    | Returns acc' => scan data body fuel (s + length_byte + 1 + 1) acc'
    end.
Proof.
  intros Hs Hl. cbn [scan].
  destruct (Z.ltb_spec s (len data)); [ | lia ].
  now rewrite Hl.
Qed.

Lemma scan_exit (body : bytes -> A -> outcome A) (fuel : nat) (s : Z) (acc : A) :
  len data <= s ->
  scan data body (S fuel) s acc = Some (Returns acc).
Proof.
  intros Hs. cbn [scan]. destruct (Z.ltb_spec s (len data)); [ lia | reflexivity ].
Qed.

(** The loop ends within [len data - s + 1] iterations. *)
Lemma scan_terminates (body : bytes -> A -> outcome A) :
  forall (fuel : nat) (s : Z) (acc : A),
    Z.max 0 (len data - s) < Z.of_nat fuel ->
    exists r, scan data body fuel s acc = Some r.
Proof.
  induction fuel as [|fuel IH]; intros s acc Hfuel.
  - lia.
  - cbn [scan]. destruct (Z.ltb_spec s (len data)) as [Hlt|Hge].
    + destruct (bytes_getitem data (s + 1)) as [l|e] eqn:Hl; [ | eauto ].
      apply bytes_getitem_range in Hl.
      destruct (body _ acc) as [acc'|e]; [ | eauto ].
      apply IH. lia.
    + eauto.
Qed.

(** The recurrence of the specification drives the loop, whatever the
    body does with the frames. *)
Lemma scan_complete (body : bytes -> A -> outcome A) :
  forall (s : Z) (bounds : list (Z * Z)),
    Spec.recurrence data s bounds ->
    forall (fuel : nat) (acc : A),
      (List.length bounds < fuel)%nat ->
      scan data body fuel s acc =
        Some (foldM body (map (Spec.byte_range data) bounds) acc).
Proof.
  induction 1 as [s Hs | s l rest Hs Hl Hrest IH]; intros fuel acc Hfuel.
  - destruct fuel as [|fuel]; [ cbn in Hfuel; lia | ].
    rewrite scan_exit by lia. reflexivity.
  - destruct fuel as [|fuel]; [ cbn in Hfuel; lia | ].
    rewrite (scan_iteration body fuel s l acc Hs Hl).
    cbn [map foldM].
    change (Spec.byte_range data (s, s + l + 1)) with (slice data s (s + l + 1)).
    destruct (body (slice data s (s + l + 1)) acc) as [acc'|e]; cbn [bind].
    + apply IH. cbn in Hfuel. lia.
    + reflexivity.
Qed.

Lemma scan_bounds_length :
  forall (s : Z) (bounds : list (Z * Z)),
    Spec.recurrence data s bounds ->
    Z.of_nat (List.length bounds) <= Z.max 0 (len data - s).
Proof.
  induction 1 as [s Hs | s l rest Hs Hl Hrest IH]; cbn [List.length].
  - lia.
  - apply bytes_getitem_range in Hl. lia.
Qed.

Lemma scan_increasing :
  forall (s : Z) (bounds : list (Z * Z)),
    Spec.recurrence data s bounds -> Spec.increasing_from s bounds.
Proof.
  induction 1 as [s Hs | s l rest Hs Hl Hrest IH]; cbn.
  - exact I.
  - apply bytes_getitem_range in Hl. repeat split; [ lia | lia | assumption ].
Qed.

End ScanFacts.

(** The recording body only ever appends. *)
Lemma foldM_record (ms acc : list bytes) :
  foldM (fun message acc => Returns (acc ++ [message])) ms acc
  = Returns (acc ++ ms).
Proof.
  revert acc. induction ms as [|m ms IH]; intros acc; cbn.
  - now rewrite app_nil_r.
  - rewrite IH. now rewrite <- app_assoc.
Qed.

(** When the recording loop returns, its frames follow the recurrence. *)
Lemma scan_sound (data : bytes) :
  forall (fuel : nat) (s : Z) (acc r : list bytes),
    scan data (fun message acc => Returns (acc ++ [message])) fuel s acc
      = Some (Returns r) ->
    exists bounds, Spec.recurrence data s bounds
                   /\ r = acc ++ map (Spec.byte_range data) bounds.
Proof.
  induction fuel as [|fuel IH]; intros s acc r H; [ discriminate | ].
  cbn [scan] in H. destruct (Z.ltb_spec s (len data)) as [Hlt|Hge].
  - destruct (bytes_getitem data (s + 1)) as [l|e] eqn:Hl; [ | discriminate ].
    apply IH in H. destruct H as (bounds & Hscan & ->).
    exists ((s, s + l + 1) :: bounds). split.
    + now constructor.
    + cbn [map]. unfold Spec.byte_range at 2. cbn [fst snd].
      now rewrite <- app_assoc.
  - injection H as <-. exists []. split.
    + constructor. lia.
    + cbn. now rewrite app_nil_r.
Qed.

(** The bytes of [l[a:b]] for [0 <= a <= b]: those of [l] at the indices
    of [[a, b)] that exist. *)
Lemma slice_nth {A : Type} (l : list A) (a b : Z) (i : nat) :
  0 <= a <= b ->
  nth_error (slice l a b) i =
    if Z.of_nat i <? b - a then nth_error l (Z.to_nat a + i) else None.
Proof.
  intros Hab. unfold slice, clamp_index. pose proof (len_nonneg l) as Hn.
  destruct (Z.ltb_spec a 0); [ lia | ].
  destruct (Z.ltb_spec b 0); [ lia | ].
  rewrite nth_error_firstn, nth_error_skipn.
  destruct (Nat.ltb_spec i (Z.to_nat (Z.min b (len l) - Z.min a (len l))));
    destruct (Z.ltb_spec (Z.of_nat i) (b - a)); try lia.
  - f_equal. lia.
  - symmetry. apply nth_error_None. unfold len in *. lia.
  - reflexivity.
Qed.

Lemma frames_terminates (data : bytes) : exists r, frames data = Some r.
Proof.
  apply scan_terminates. unfold enough_fuel. pose proof (len_nonneg data).
  unfold len in *. lia.
Qed.

Lemma to_list_loop_terminates (data : bytes) (types : option (list Z)) :
  exists r, to_list_loop data types = Some r.
Proof.
  apply scan_terminates. unfold enough_fuel. pose proof (len_nonneg data).
  unfold len in *. lia.
Qed.

(** [to_list] returns or raises on every buffer and every choice of
    categories: the iteration bound is never reached. *)
Lemma to_list_terminates (data : bytes) (processRead processWrite processEvent : bool) :
  exists r, to_list data processRead processWrite processEvent = Some r.
Proof. apply to_list_loop_terminates. Qed.

Lemma enough_fuel_bounds (data : bytes) (bounds : list (Z * Z)) :
  Spec.recurrence data 0 bounds -> (List.length bounds < enough_fuel data)%nat.
Proof.
  intros H. apply scan_bounds_length in H. unfold enough_fuel, len in *. lia.
Qed.

(** Whatever is done with the frames, the loop of [to_list] feeds them to
    its body in scan order. *)
Lemma to_list_loop_frames (data : bytes) (types : option (list Z))
      (ms : list bytes) :
  frames data = Some (Returns ms) ->
  to_list_loop data types = Some (foldM (process_message types) ms []).
Proof.
  intros H. apply scan_sound in H. destruct H as (bounds & Hscan & ->).
  cbn [app]. unfold to_list_loop.
  apply scan_complete; [ assumption | now apply enough_fuel_bounds ].
Qed.

(** C1: on every buffer the scanner stops, and the frames it produces are
    those of the recurrence of the specification: the cursor starts at 0;
    an iteration at [next_start < len buffer] takes
    [frame_start = next_start],
    [frame_end = frame_start + buffer[frame_start + 1] + 1] and
    [next_start = frame_end + 1]; the frame is the byte range
    [[frame_start, frame_end)]; the scan is over exactly when
    [next_start >= len buffer]; frame starts increase from offset 0; and
    these frames, in this order, are what [to_list] decodes. *)
Theorem C1_frame_scanner_recurrence (buffer : bytes) :
  (exists r, frames buffer = Some r)
  /\ (forall (A : Type) (body : bytes -> A -> outcome A) (fuel : nat)
             (next_start length_field : Z) (acc : A),
        next_start < len buffer ->
        bytes_getitem buffer (next_start + 1) = Returns length_field ->
        let frame_start := next_start in
        let frame_end := frame_start + length_field + 1 in
        scan buffer body (S fuel) next_start acc =
          match body (Spec.byte_range buffer (frame_start, frame_end)) acc with
          | Raises e => Some (Raises e)
          | Returns acc' => scan buffer body fuel (frame_end + 1) acc'
          end)
  /\ (forall (A : Type) (body : bytes -> A -> outcome A) (fuel : nat)
             (next_start : Z) (acc : A),
        next_start >= len buffer ->
        scan buffer body (S fuel) next_start acc = Some (Returns acc))
  /\ (forall ms : list bytes,
        frames buffer = Some (Returns ms) <->
        exists bounds, Spec.recurrence buffer 0 bounds
                       /\ ms = map (Spec.byte_range buffer) bounds)
  /\ (forall bounds, Spec.recurrence buffer 0 bounds -> Spec.increasing_from 0 bounds)
  /\ (forall (frame_start frame_end : Z) (i : nat),
        0 <= frame_start <= frame_end ->
        nth_error (Spec.byte_range buffer (frame_start, frame_end)) i =
          if Z.of_nat i <? frame_end - frame_start
          then nth_error buffer (Z.to_nat frame_start + i) else None)
  /\ (forall types ms,
        frames buffer = Some (Returns ms) ->
        to_list_loop buffer types = Some (foldM (process_message types) ms [])).
Proof.
  split; [ apply frames_terminates | ].
  split; [ | split; [ | split; [ | split; [ | split ] ] ] ].
  - intros A body fuel s l acc Hs Hl. cbv zeta.
    now apply scan_iteration.
  - intros A body fuel s acc Hs. apply scan_exit. lia.
  - intros ms. split.
    + intros H. apply scan_sound in H. exact H.
    + intros (bounds & Hscan & ->). unfold frames.
      rewrite (scan_complete buffer _ 0 bounds Hscan)
        by now apply enough_fuel_bounds.
      now rewrite foldM_record.
  - intros bounds. apply scan_increasing.
  - intros a b i Hab. apply slice_nth. exact Hab.
  - intros types ms. apply to_list_loop_frames.
Qed.

(** [C1_frame_scanner_recurrence] at a buffer of two frames, the second
    one cut short by the end of the buffer. *)
Lemma C1_frame_scanner_recurrence_witness :
  frames [x01; x02; x05; x09; x03; x07; x05] =
    Some (Returns [[x01; x02; x05]; [x03; x07; x05]]).
Proof.
  apply (proj1 (proj2 (proj2 (proj2 (C1_frame_scanner_recurrence _))))).
  exists [(0, 3); (4, 12)]. split; [ | reflexivity ].
  apply (Spec.recurrence_frame _ 0 2); [ reflexivity | reflexivity | ].
  apply (Spec.recurrence_frame _ 4 7); [ reflexivity | reflexivity | ].
  apply Spec.recurrence_stop. vm_compute. discriminate.
Defined.

(* ------------------------------------------------------------------ *)
(** ** Indexing into slices *)
(* ------------------------------------------------------------------ *)

Lemma getitem_nonneg {A : Type} (l : list A) (i : Z) :
  0 <= i ->
  getitem l i = match nth_error l (Z.to_nat i) with
                | Some x => Returns x
                | None => Raises IndexError
                end.
Proof.
  intros Hi. destruct (nth_error l (Z.to_nat i)) as [x|] eqn:Hn.
  - now apply getitem_nth.
  - apply getitem_out. apply nth_error_None in Hn. unfold len. lia.
Qed.

Lemma getitem_slice {A : Type} (l : list A) (s e i : Z) :
  0 <= s -> 0 <= i < e - s ->
  getitem (slice l s e) i = getitem l (s + i).
Proof.
  intros Hs Hi. rewrite !getitem_nonneg by lia.
  rewrite slice_nth by lia.
  destruct (Z.ltb_spec (Z.of_nat (Z.to_nat i)) (e - s)); [ | lia ].
  now replace (Z.to_nat (s + i)) with (Z.to_nat s + Z.to_nat i)%nat by lia.
Qed.

Lemma bytes_getitem_slice (l : bytes) (s e i : Z) :
  0 <= s -> 0 <= i < e - s ->
  bytes_getitem (slice l s e) i = bytes_getitem l (s + i).
Proof.
  intros Hs Hi. unfold bytes_getitem. now rewrite getitem_slice.
Qed.

(* ------------------------------------------------------------------ *)
(** ** Category filter *)
(* ------------------------------------------------------------------ *)

(** With [None] for a filter the first frame already fails: the type byte
    is read, then [message_type in None] raises. *)
Lemma to_list_loop_None (data : bytes) :
  2 <= len data -> to_list_loop data None = Some (Raises TypeError).
Proof.
  intros Hlen. unfold to_list_loop, enough_fuel.
  destruct (bytes_getitem_in data 1 ltac:(lia)) as (b1 & Hb1 & _).
  rewrite (scan_iteration data _ _ 0 (int_of_byte b1)) by (assumption || lia).
  pose proof (int_of_byte_range b1) as Hr.
  unfold process_message.
  rewrite bytes_getitem_slice by lia.
  destruct (bytes_getitem_in data (0 + 0) ltac:(lia)) as (b0 & -> & _).
  reflexivity.
Qed.

(** C8: the category-filter helper returns a list only when the event
    category is requested: with [processEvent = true] the list holds 1 if
    [processRead], 2 if [processWrite], and 3; with [processEvent = false]
    it returns [None] whatever the other two flags are, and [to_list] then
    has no usable filter: on any buffer that holds a frame header it raises
    [TypeError] at the first membership test. *)
Theorem C8_filter_only_with_event :
  (forall processRead processWrite : bool,
      unpack_message_types_to_process processRead processWrite true =
        Some ((if processRead then [1] else [])
                ++ (if processWrite then [2] else []) ++ [3]))
  /\ (forall processRead processWrite : bool,
        unpack_message_types_to_process processRead processWrite false = None)
  /\ (forall (data : bytes) (processRead processWrite : bool),
        2 <= len data ->
        to_list data processRead processWrite false = Some (Raises TypeError)).
Proof.
  split; [ | split ].
  - intros [] []; reflexivity.
  - intros [] []; reflexivity.
  - intros data r w Hlen. unfold to_list.
    replace (unpack_message_types_to_process r w false) with (@None (list Z))
      by (destruct r, w; reflexivity).
    now apply to_list_loop_None.
Qed.

(** [C8_filter_only_with_event] on a complete read frame. *)
Lemma C8_filter_only_with_event_witness :
  2 <= len [x01; x05; x05; x00; x01; x2a; x36]
  /\ to_list [x01; x05; x05; x00; x01; x2a; x36] true true false
     = Some (Raises TypeError).
Proof.
  split; [ vm_compute; discriminate | ].
  apply (proj2 (proj2 C8_filter_only_with_event)). vm_compute. discriminate.
Defined.

(* ------------------------------------------------------------------ *)
(** ** Formats and [struct.unpack] *)
(* ------------------------------------------------------------------ *)

Section Unpack.

Variables (c : ascii) (w : Z).
Hypothesis code_c : code_size c = Some w.

Lemma code_size_pos : 0 < w.
Proof.
  destruct c as [[] [] [] [] [] [] [] []]; cbn in code_c;
    try discriminate; injection code_c as <-; lia.
Qed.

Lemma calcsize_repeat (n : nat) :
  calcsize (str_repeat (String c EmptyString) n) = Returns (w * Z.of_nat n).
Proof.
  induction n as [|n IH].
  - cbn. f_equal. lia.
  - cbn [str_repeat append calcsize]. rewrite code_c, IH. cbn [bind].
    f_equal. lia.
Qed.

Lemma len_concat_chunks (chunks : list bytes) :
  Forall (fun ch => len ch = w) chunks ->
  len (List.concat chunks) = w * len chunks.
Proof.
  induction 1 as [|ch chunks Hch _ IH]; cbn [List.concat].
  - cbn. lia.
  - rewrite len_app, len_cons, IH, Hch. lia.
Qed.

(** A run of [n] copies of one character reads [n] chunks of its width. *)
Lemma unpack_codes_chunks (chunks : list bytes) :
  Forall (fun ch => len ch = w) chunks ->
  unpack_codes (str_repeat (String c EmptyString) (List.length chunks))
               (List.concat chunks)
  = map (unpack_code c) chunks.
Proof.
  induction 1 as [|ch chunks Hch _ IH]; [ reflexivity | ].
  cbn [List.length str_repeat append unpack_codes List.concat map].
  rewrite code_c.
  assert (Hn : Z.to_nat w = List.length ch) by (unfold len in Hch; lia).
  rewrite Hn, firstn_app, Nat.sub_diag, firstn_all, firstn_O, app_nil_r.
  rewrite skipn_app, Nat.sub_diag, skipn_all, skipn_O. cbn [app].
  now rewrite IH.
Qed.

(** The element count of a payload made of whole chunks. *)
Lemma count_chunks (chunks : list bytes) :
  Forall (fun ch => len ch = w) chunks ->
  Z.to_nat (len (List.concat chunks) / w) = List.length chunks.
Proof.
  intros H. rewrite (len_concat_chunks chunks H).
  pose proof code_size_pos.
  rewrite Z.mul_comm, Z.div_mul by lia. unfold len. lia.
Qed.

End Unpack.

(* ------------------------------------------------------------------ *)
(** ** Decoding one frame *)
(* ------------------------------------------------------------------ *)

Lemma bytes_getitem_nth (l : bytes) (i : Z) (b : byte) :
  0 <= i -> nth_error l (Z.to_nat i) = Some b ->
  bytes_getitem l i = Returns (int_of_byte b).
Proof.
  intros Hi Hn. unfold bytes_getitem. now rewrite (getitem_nth l i b).
Qed.

Lemma slice_from_app {A : Type} (pre l : list A) :
  slice_from (pre ++ l) (len pre) = l.
Proof.
  unfold slice_from, clamp_index. rewrite len_app.
  pose proof (len_nonneg pre). pose proof (len_nonneg l).
  destruct (Z.ltb_spec (len pre) 0); [ lia | ].
  rewrite Z.min_l by lia. unfold len. rewrite Nat2Z.id.
  rewrite skipn_app, Nat.sub_diag, skipn_all. reflexivity.
Qed.

Lemma slice_from_header {A : Type} (x0 x1 x2 x3 x4 : A) (l : list A) :
  slice_from (x0 :: x1 :: x2 :: x3 :: x4 :: l) 5 = l.
Proof.
  unfold slice_from, clamp_index. rewrite !len_cons.
  pose proof (len_nonneg l).
  destruct (Z.ltb_spec 5 0); [ lia | ].
  rewrite Z.min_l by lia. reflexivity.
Qed.

(** The flag test of the parser reads bit 4 of the payload type byte. *)
Lemma has_timestamp_bit (b : byte) :
  truthy (Z.land (int_of_byte b) HAS_TIMESTAMP) = Z.testbit (int_of_byte b) 4.
Proof. destruct b; reflexivity. Qed.

Section DecodeMessage.

Variables (message_type : Z) (b0 b1 b2 b3 b4 : byte) (payload : bytes).

(** Once the frame has its five header bytes, the address is byte 2, the
    payload type byte 4 and the payload everything from byte 5 on. *)
Lemma decode_message_header :
  decode_message message_type (b0 :: b1 :: b2 :: b3 :: b4 :: payload) =
    (payload_length <-
       floordiv
         (len payload
          - (if truthy (Z.land (int_of_byte b4) HAS_TIMESTAMP) then 6 else 0))
         (Z.land (int_of_byte b4) SIZE_MASK) ;;
     format <- PayloadLookup.get_payload_string
                 (Z.land (int_of_byte b4) HAS_TIMESTAMP) payload_length
                 (int_of_byte b4) ;;
     unpacked_data <- struct_unpack format payload ;;
     if truthy (Z.land (int_of_byte b4) HAS_TIMESTAMP) then
       u0 <- getitem unpacked_data 0 ;;
       u1 <- getitem unpacked_data 1 ;;
       Returns ([PyInt message_type; PyInt (int_of_byte b2);
                 PyFloat (PrimFloat.add (py_float u0)
                            (PrimFloat.mul (py_float u1) MICROSECOND_TO_SECOND))]
                  ++ slice_from unpacked_data 2)
     else
       Returns ([PyInt message_type; PyInt (int_of_byte b2); PyFloat NAN]
                  ++ unpacked_data)).
Proof.
  unfold decode_message.
  rewrite (bytes_getitem_nth _ 2 b2) by (reflexivity || lia).
  rewrite (bytes_getitem_nth _ 4 b4) by (reflexivity || lia).
  cbn [bind]. rewrite slice_from_header. reflexivity.
Qed.

(** A zero width field stops the decoder at the division. *)
Lemma decode_message_zero_width :
  Z.land (int_of_byte b4) SIZE_MASK = 0 ->
  decode_message message_type (b0 :: b1 :: b2 :: b3 :: b4 :: payload)
  = Raises ZeroDivisionError.
Proof.
  intros H0. rewrite decode_message_header. unfold floordiv.
  rewrite H0. reflexivity.
Qed.

(** A key outside the table stops it at the lookup, when the width field
    is not zero. *)
Lemma decode_message_unknown_type (e : exn) :
  Z.land (int_of_byte b4) SIZE_MASK <> 0 ->
  PayloadLookup.get_data_char (int_of_byte b4) = Raises e ->
  decode_message message_type (b0 :: b1 :: b2 :: b3 :: b4 :: payload)
  = Raises KeyError.
Proof.
  intros Hw Hget. rewrite decode_message_header. unfold floordiv.
  destruct (Z.eqb_spec (Z.land (int_of_byte b4) SIZE_MASK) 0);
    [ contradiction | ].
  cbn [bind]. unfold PayloadLookup.get_payload_string. rewrite Hget.
  apply get_data_char_raises in Hget. now subst e.
Qed.

(** The format built for [count = (len payload - prefix) // w] elements
    does not have the size of the payload when the division is not exact. *)
Lemma inexact_count_size (w prefix : Z) :
  0 < w -> 0 <= prefix ->
  (len payload - prefix) mod w <> 0 ->
  prefix + w * Z.of_nat (Z.to_nat ((len payload - prefix) / w)) <> len payload.
Proof.
  intros Hw Hprefix Hmod.
  pose proof (len_nonneg payload) as Hlen.
  pose proof (Z.div_mod (len payload - prefix) w ltac:(lia)) as Hdm.
  pose proof (Z.mod_pos_bound (len payload - prefix) w Hw) as Hmb.
  set (q := (len payload - prefix) / w) in *.
  destruct (Z.le_gt_cases 0 q) as [Hq|Hq].
  - rewrite Z2Nat.id by assumption. lia.
  - replace (Z.to_nat q) with 0%nat by lia.
    assert (len payload - prefix < 0) by nia. lia.
Qed.

(** A payload that is not a whole number of elements after the timestamp
    prefix stops it in [struct.unpack]. *)
Lemma decode_message_malformed (c : ascii) (w : Z) :
  PayloadLookup.get_data_char (int_of_byte b4) = Returns (String c EmptyString) ->
  code_size c = Some w ->
  (len payload
   - (if truthy (Z.land (int_of_byte b4) HAS_TIMESTAMP) then 6 else 0)) mod w
  <> 0 ->
  decode_message message_type (b0 :: b1 :: b2 :: b3 :: b4 :: payload)
  = Raises struct_error.
Proof.
  intros Hget Hc Hmod.
  destruct (get_data_char_width b4 _ Hget) as (c' & [= <-] & Hc' & Hpos).
  assert (Hw : Z.land (int_of_byte b4) SIZE_MASK = w)
    by (unfold SIZE_MASK; congruence).
  assert (0 < w) by (rewrite <- Hw; exact Hpos).
  rewrite decode_message_header. unfold floordiv. rewrite Hw.
  destruct (Z.eqb_spec w 0) as [Hw0|Hw0]; [ lia | ].
  cbn [bind]. unfold PayloadLookup.get_payload_string. rewrite Hget.
  cbn [bind]. unfold str_mul.
  destruct (truthy (Z.land (int_of_byte b4) HAS_TIMESTAMP)).
  - pose proof (inexact_count_size w 6 ltac:(lia) ltac:(lia) Hmod) as Hsize.
    cbn [append bind struct_unpack calcsize code_size].
    rewrite (calcsize_repeat c w Hc). cbn [bind].
    destruct (Z.eqb_spec
                (4 + (2 + w * Z.of_nat (Z.to_nat ((len payload - 6) / w))))
                (len payload));
      [ lia | reflexivity ].
  - pose proof (inexact_count_size w 0 ltac:(lia) ltac:(lia) Hmod) as Hsize.
    cbn [append bind struct_unpack].
    rewrite (calcsize_repeat c w Hc). cbn [bind].
    destruct (Z.eqb_spec (w * Z.of_nat (Z.to_nat ((len payload - 0) / w)))
                         (len payload));
      [ lia | reflexivity ].
Qed.

End DecodeMessage.

Section DecodeWellFormed.

Variables (message_type : Z) (b0 b1 b2 b3 b4 : byte).
Variables (c : ascii) (w : Z) (chunks : list bytes).

Hypothesis lookup_c :
  PayloadLookup.get_data_char (int_of_byte b4) = Returns (String c EmptyString).
Hypothesis code_c : code_size c = Some w.
Hypothesis whole_chunks : Forall (fun ch => len ch = w) chunks.

Lemma width_field : Z.land (int_of_byte b4) SIZE_MASK = w.
Proof.
  destruct (get_data_char_width b4 _ lookup_c) as (c' & [= <-] & Hc' & _).
  unfold SIZE_MASK. congruence.
Qed.

(** Without the timestamp flag every chunk of the payload becomes one
    element, after the sentinel [NAN]. *)
Lemma decode_message_plain :
  Z.testbit (int_of_byte b4) 4 = false ->
  decode_message message_type
    (b0 :: b1 :: b2 :: b3 :: b4 :: List.concat chunks)
  = Returns ([PyInt message_type; PyInt (int_of_byte b2); PyFloat NAN]
               ++ map (unpack_code c) chunks).
Proof.
  intros Hbit. rewrite decode_message_header.
  rewrite has_timestamp_bit, Hbit, width_field. unfold floordiv.
  pose proof (code_size_pos c w code_c).
  destruct (Z.eqb_spec w 0); [ lia | ]. cbn [bind].
  unfold PayloadLookup.get_payload_string. rewrite lookup_c. cbn [bind].
  rewrite has_timestamp_bit, Hbit.
  cbn [append bind struct_unpack]. unfold str_mul.
  rewrite Z.sub_0_r, (count_chunks c w code_c chunks whole_chunks).
  rewrite (calcsize_repeat c w code_c). cbn [bind].
  rewrite (len_concat_chunks w chunks whole_chunks).
  replace (w * Z.of_nat (List.length chunks) =? w * len chunks) with true
    by (symmetry; apply Z.eqb_eq; reflexivity).
  now rewrite (unpack_codes_chunks c w code_c chunks whole_chunks).
Qed.

(** With the flag, the first six bytes are the seconds and the ticks, both
    little-endian, and the chunks after them are the elements. *)
Lemma decode_message_timestamped (s0 s1 s2 s3 t0 t1 : byte) :
  Z.testbit (int_of_byte b4) 4 = true ->
  decode_message message_type
    (b0 :: b1 :: b2 :: b3 :: b4
        :: s0 :: s1 :: s2 :: s3 :: t0 :: t1 :: List.concat chunks)
  = Returns ([PyInt message_type; PyInt (int_of_byte b2);
              PyFloat (PrimFloat.add
                         (float_of_int (le_uint [s0; s1; s2; s3]))
                         (PrimFloat.mul (float_of_int (le_uint [t0; t1]))
                                        MICROSECOND_TO_SECOND))]
               ++ map (unpack_code c) chunks).
Proof.
  intros Hbit. rewrite decode_message_header.
  rewrite has_timestamp_bit, Hbit, width_field. unfold floordiv.
  pose proof (code_size_pos c w code_c).
  destruct (Z.eqb_spec w 0); [ lia | ]. cbn [bind].
  unfold PayloadLookup.get_payload_string. rewrite lookup_c. cbn [bind].
  rewrite has_timestamp_bit, Hbit.
  cbn [append bind struct_unpack calcsize code_size]. unfold str_mul.
  rewrite !len_cons.
  replace (1 + (1 + (1 + (1 + (1 + (1 + len (List.concat chunks)))))) - 6)
    with (len (List.concat chunks)) by lia.
  rewrite (count_chunks c w code_c chunks whole_chunks).
  rewrite (calcsize_repeat c w code_c). cbn [bind].
  rewrite (len_concat_chunks w chunks whole_chunks).
  replace (4 + (2 + w * Z.of_nat (List.length chunks))
           =? 1 + (1 + (1 + (1 + (1 + (1 + w * len chunks))))))
    with true by (symmetry; apply Z.eqb_eq; unfold len; lia).
  cbn [unpack_codes code_size Z.to_nat].
  change (Pos.to_nat 4) with 4%nat. change (Pos.to_nat 2) with 2%nat.
  cbn [firstn skipn].
  rewrite (unpack_codes_chunks c w code_c chunks whole_chunks).
  cbn [bind].
  rewrite (getitem_nth _ 0 (unpack_code "I" [s0; s1; s2; s3]))
    by (reflexivity || lia).
  rewrite (getitem_nth _ 1 (unpack_code "H" [t0; t1]))
    by (reflexivity || lia).
  cbn [bind].
  change (slice_from (?x :: ?y :: map (unpack_code c) chunks) 2)
    with (slice_from ([x; y] ++ map (unpack_code c) chunks) (len [x; y])).
  rewrite slice_from_app.
  reflexivity.
Qed.

End DecodeWellFormed.

(* ------------------------------------------------------------------ *)
(** ** The loop body *)
(* ------------------------------------------------------------------ *)

Lemma process_message_retained (types : option (list Z)) (b0 : byte)
      (rest : bytes) (rows : list (list pyval)) :
  py_in (int_of_byte b0) types = Returns true ->
  process_message types (b0 :: rest) rows =
    (row <- decode_message (int_of_byte b0) (b0 :: rest) ;;
     Returns (rows ++ [row])).
Proof.
  intros Hin. unfold process_message.
  rewrite (bytes_getitem_nth _ 0 b0) by (reflexivity || lia).
  cbn [bind]. rewrite Hin. reflexivity.
Qed.

Lemma process_message_skipped (types : option (list Z)) (b0 : byte)
      (rest : bytes) (rows : list (list pyval)) :
  py_in (int_of_byte b0) types = Returns false ->
  process_message types (b0 :: rest) rows = Returns rows.
Proof.
  intros Hin. unfold process_message.
  rewrite (bytes_getitem_nth _ 0 b0) by (reflexivity || lia).
  cbn [bind]. rewrite Hin. reflexivity.
Qed.

(** An exception in the body is the outcome of the whole loop. *)
Lemma scan_body_raises {A : Type} (data : bytes)
      (body : bytes -> A -> outcome A) (fuel : nat) (s l : Z) (acc : A) (e : exn) :
  s < len data ->
  bytes_getitem data (s + 1) = Returns l ->
  body (slice data s (s + l + 1)) acc = Raises e ->
  scan data body (S fuel) s acc = Some (Raises e).
Proof.
  intros Hs Hl Hbody. rewrite (scan_iteration data body fuel s l acc Hs Hl).
  now rewrite Hbody.
Qed.

(* ------------------------------------------------------------------ *)
(** ** Little-endian encoding *)
(* ------------------------------------------------------------------ *)

Lemma int_of_byte_of_int (z : Z) : int_of_byte (Spec.byte_of_int z) = z mod 256.
Proof.
  unfold Spec.byte_of_int, int_of_byte.
  pose proof (Z.mod_pos_bound z 256 ltac:(lia)) as Hm.
  pose proof (Byte.to_of_N_option_map (Z.to_N (z mod 256))) as Ho.
  destruct (N.leb_spec (Z.to_N (z mod 256)) 255) as [_|Hgt]; [ | lia ].
  destruct (Byte.of_N (Z.to_N (z mod 256))) as [b|]; [ | discriminate ].
  cbn in Ho. injection Ho as ->. lia.
Qed.

Lemma le_uint_le_bytes (n : nat) :
  forall z : Z, 0 <= z < 256 ^ Z.of_nat n -> le_uint (Spec.le_bytes n z) = z.
Proof.
  induction n as [|n IH]; intros z Hz.
  - cbn in *. lia.
  - cbn [Spec.le_bytes le_uint]. rewrite int_of_byte_of_int.
    rewrite Nat2Z.inj_succ, Z.pow_succ_r in Hz by lia.
    rewrite IH.
    + pose proof (Z.div_mod z 256 ltac:(lia)). lia.
    + split; [ apply Z.div_pos; lia | apply Z.div_lt_upper_bound; lia ].
Qed.

(** [32e-6] as a binary64 number: mantissa and exponent, and the fact that
    no binary64 number of that exponent is nearer to 32/10^6. *)
Lemma MICROSECOND_TO_SECOND_nearest :
  Prim2SF MICROSECOND_TO_SECOND = S754_finite false 4722366482869645 (-67)
  /\ 2 ^ 52 <= 4722366482869645 < 2 ^ 53
  /\ Z.abs (2 * (4722366482869645 * 10 ^ 6 - 32 * 2 ^ 67)) <= 10 ^ 6.
Proof. repeat split; vm_compute; congruence. Qed.

(* ------------------------------------------------------------------ *)
(** ** Values of the fields *)
(* ------------------------------------------------------------------ *)

Lemma le_uint_range (bs : bytes) : 0 <= le_uint bs < 256 ^ len bs.
Proof.
  induction bs as [|b bs IH].
  - cbn. lia.
  - cbn [le_uint]. rewrite len_cons. pose proof (len_nonneg bs).
    pose proof (int_of_byte_range b).
    replace (1 + len bs) with (Z.succ (len bs)) by lia.
    rewrite Z.pow_succ_r by assumption. lia.
Qed.

(** The byte at offset [i] is the digit of weight [256^i]. *)
Lemma le_uint_digit :
  forall (bs : bytes) (i : nat) (b : byte),
    nth_error bs i = Some b ->
    (le_uint bs / 256 ^ Z.of_nat i) mod 256 = int_of_byte b.
Proof.
  induction bs as [|b0 bs IH]; intros i b Hn; [ destruct i; discriminate | ].
  pose proof (int_of_byte_range b0) as Hb0.
  cbn [le_uint]. destruct i as [|i]; cbn [nth_error] in Hn.
  - injection Hn as <-. cbn [Z.of_nat]. rewrite Z.pow_0_r, Z.div_1_r.
    rewrite (Z.mul_comm 256), Z.mod_add by lia. apply Z.mod_small. lia.
  - rewrite Nat2Z.inj_succ, Z.pow_succ_r by lia.
    rewrite <- Z.div_div by (try apply Z.pow_pos_nonneg; lia).
    rewrite (Z.mul_comm 256), Z.div_add by lia.
    rewrite (Z.div_small (int_of_byte b0)) by lia. cbn [Z.add].
    now apply IH.
Qed.

Lemma unsigned_value_le_uint (bs : bytes) : Spec.unsigned_value bs (le_uint bs).
Proof. split; [ apply le_uint_range | apply le_uint_digit ]. Qed.

Lemma to_signed_spec (n u : Z) :
  0 < n -> 0 <= u < 2 ^ n ->
  - 2 ^ (n - 1) <= to_signed n u < 2 ^ (n - 1)
  /\ to_signed n u mod 2 ^ n = u.
Proof.
  intros Hn Hu. unfold to_signed.
  assert (Hpow : 2 ^ n = 2 * 2 ^ (n - 1)).
  { replace n with (Z.succ (n - 1)) at 1 by lia.
    apply Z.pow_succ_r. lia. }
  assert (0 < 2 ^ (n - 1)) by (apply Z.pow_pos_nonneg; lia).
  destruct (Z.ltb_spec u (2 ^ (n - 1))).
  - split; [ lia | apply Z.mod_small; lia ].
  - split; [ lia | ].
    replace (u - 2 ^ n) with (u + (-1) * 2 ^ n) by lia.
    rewrite Z.mod_add by lia. apply Z.mod_small. lia.
Qed.

Lemma signed_value_to_signed (bs : bytes) :
  0 < len bs -> Spec.signed_value bs (to_signed (8 * len bs) (le_uint bs)).
Proof.
  intros Hlen. pose proof (le_uint_range bs) as Hr.
  assert (Hpow : 256 ^ len bs = 2 ^ (8 * len bs))
    by (rewrite Z.pow_mul_r by lia; reflexivity).
  rewrite Hpow in Hr.
  destruct (to_signed_spec (8 * len bs) (le_uint bs) ltac:(lia) Hr) as (H1 & H2).
  split; [ exact H1 | ]. rewrite H2. apply unsigned_value_le_uint.
Qed.

(** The bit-field reading of a binary32 word is the IEEE 754 one. *)
Lemma binary32_to_spec_float (u : Z) :
  0 <= u < 2 ^ 32 ->
  SF2Prim (binary32_to_spec u) = Spec.binary32_float u.
Proof.
  intros Hu. unfold binary32_to_spec, Spec.binary32_float.
  assert (Hsign : Z.testbit u 31 = (2 ^ 31 <=? u)).
  { rewrite Z.testbit_odd, Z.shiftr_div_pow2 by lia.
    pose proof (Z.div_mod u (2 ^ 31) ltac:(lia)) as Hdm.
    pose proof (Z.mod_pos_bound u (2 ^ 31) ltac:(lia)) as Hmb.
    assert (Hq : u / 2 ^ 31 = 0 \/ u / 2 ^ 31 = 1) by lia.
    destruct Hq as [Hq|Hq]; rewrite Hq in *;
      destruct (Z.leb_spec (2 ^ 31) u); try reflexivity; lia. }
  assert (Hexp : Z.land (Z.shiftr u 23) 255 = (u / 2 ^ 23) mod 2 ^ 8).
  { rewrite Z.shiftr_div_pow2 by lia.
    change 255 with (Z.ones 8). now rewrite Z.land_ones by lia. }
  assert (Hfrac : Z.land u 8388607 = u mod 2 ^ 23).
  { change 8388607 with (Z.ones 23). now rewrite Z.land_ones by lia. }
  rewrite Hsign, Hexp, Hfrac.
  pose proof (Z.mod_pos_bound u (2 ^ 23) ltac:(lia)) as Hf.
  set (negative := 2 ^ 31 <=? u).
  set (exponent := (u / 2 ^ 23) mod 2 ^ 8).
  set (fraction := u mod 2 ^ 23) in *.
  destruct (exponent =? 255).
  - destruct (fraction =? 0); destruct negative; reflexivity.
  - destruct (exponent =? 0).
    + destruct fraction as [|p|p]; [ | | lia ]; destruct negative; reflexivity.
    + change (2 ^ 23) with 8388608 in *.
      destruct (8388608 + fraction) as [|p|p] eqn:E; [ lia | | lia ].
      destruct negative; reflexivity.
Qed.

(** The characters of [DATA_CHARS] carry the class bits of their keys. *)
Lemma get_data_char_class (pt : byte) (c : ascii) :
  PayloadLookup.get_data_char (int_of_byte pt) = Returns (String c EmptyString) ->
  code_float c = Z.testbit (int_of_byte pt) 6
  /\ code_signed c = Z.testbit (int_of_byte pt) 7
  /\ (code_float c = true -> Z.land (int_of_byte pt) 0x0F = 4).
Proof.
  destruct pt; vm_compute; intros H; try discriminate H;
    injection H as <-; repeat split; discriminate.
Qed.

Lemma last_app_cons {A : Type} (l l' : list A) (x d : A) :
  last (l ++ x :: l') d = last (x :: l') d.
Proof.
  induction l as [|a l IH]; [ reflexivity | ].
  cbn [app]. change (last (a :: l ++ x :: l') d)
    with (match l ++ x :: l' with
          | [] => a
          | _ :: _ => last (l ++ x :: l') d
          end).
  destruct (l ++ x :: l') eqn:E; [ destruct l; discriminate | ].
  exact IH.
Qed.

Lemma float_of_int_nonneg (z : Z) :
  0 <= z -> float_of_int z = PrimFloat.of_uint63 (Uint63.of_Z z).
Proof.
  intros Hz. unfold float_of_int. destruct (Z.ltb_spec z 0); [ lia | reflexivity ].
Qed.

(* ------------------------------------------------------------------ *)
(** ** Integers as binary64 numbers *)
(* ------------------------------------------------------------------ *)

Lemma digits2_pos_bounds (p : positive) :
  2 ^ (Zpos (digits2_pos p) - 1) <= Zpos p < 2 ^ Zpos (digits2_pos p).
Proof.
  induction p as [p IH|p IH|]; cbn [digits2_pos].
  - rewrite Pos2Z.inj_succ, (Pos2Z.inj_xI p).
    replace (Z.succ (Zpos (digits2_pos p)) - 1)
      with (Z.succ (Zpos (digits2_pos p) - 1)) by lia.
    rewrite !Z.pow_succ_r by lia.
    generalize dependent (2 ^ (Zpos (digits2_pos p) - 1)).
    generalize (2 ^ Zpos (digits2_pos p)). intros; lia.
  - rewrite Pos2Z.inj_succ, (Pos2Z.inj_xO p).
    replace (Z.succ (Zpos (digits2_pos p)) - 1)
      with (Z.succ (Zpos (digits2_pos p) - 1)) by lia.
    rewrite !Z.pow_succ_r by lia.
    generalize dependent (2 ^ (Zpos (digits2_pos p) - 1)).
    generalize (2 ^ Zpos (digits2_pos p)). intros; lia.
  - cbn. lia.
Qed.

Lemma iter_xO_value (p k : positive) :
  Zpos (Pos.iter xO p k) = Zpos p * 2 ^ Zpos k.
Proof.
  induction k as [|k IH] using Pos.peano_ind.
  - cbn [Pos.iter]. lia.
  - rewrite Pos.iter_succ, Pos2Z.inj_xO, IH, Pos2Z.inj_succ, Z.pow_succ_r
      by lia.
    lia.
Qed.

Lemma iter_xO_digits (p k : positive) :
  digits2_pos (Pos.iter xO p k) = (digits2_pos p + k)%positive.
Proof.
  induction k as [|k IH] using Pos.peano_ind.
  - cbn [Pos.iter digits2_pos]. lia.
  - rewrite Pos.iter_succ. cbn [digits2_pos]. rewrite IH. lia.
Qed.

(** Rounding an integer of fewer than 53 bits to binary64 only shifts it:
    no bit is lost. *)
Lemma binary_normalize_small (p : positive) :
  Zpos (digits2_pos p) < 53 ->
  exists k : positive,
    Zpos k = 53 - Zpos (digits2_pos p)
    /\ binary_normalize prec emax (Zpos p) 0 false
       = S754_finite false (Pos.iter xO p k) (- Zpos k).
Proof.
  intros Hd.
  cbn [binary_normalize]. unfold binary_round, shl_align.
  rewrite Z.add_0_r, Z.sub_0_r.
  assert (Hfexp : forall e, -1021 <= e -> fexp prec emax e = e - 53).
  { intros e He. unfold fexp, SpecFloat.emin, prec, emax. lia. }
  rewrite Hfexp by lia.
  destruct (Zpos (digits2_pos p) - 53) as [|q|k] eqn:E; try lia.
  exists k. split; [ lia | ].
  unfold binary_round_aux, shr_fexp. cbn [Zdigits2].
  rewrite iter_xO_digits.
  rewrite Hfexp by lia.
  replace (Zpos (digits2_pos p + k) + Zneg k - 53 - Zneg k) with 0 by lia.
  cbn [shr shr_record_of_loc shr_m loc_of_shr_record round_nearest_even Zdigits2].
  rewrite iter_xO_digits. rewrite Hfexp by lia.
  replace (Zpos (digits2_pos p + k) + Zneg k - 53 - Zneg k) with 0 by lia.
  cbn [shr shr_record_of_loc shr_m].
  destruct (Z.leb_spec (Zneg k) (emax - prec)); [ reflexivity | ].
  unfold emax, prec in *. lia.
Qed.

(** [float(n)] is exact below [2^52]: the conversion is the IEEE 754
    rounding of [n], and that rounding returns [n] itself. *)
Lemma of_uint63_exact (z : Z) :
  0 <= z < 2 ^ 52 ->
  Prim2SF (PrimFloat.of_uint63 (Uint63.of_Z z))
  = binary_normalize prec emax z 0 false
  /\ Spec.represents (PrimFloat.of_uint63 (Uint63.of_Z z)) z.
Proof.
  intros Hz.
  assert (Hspec : Prim2SF (PrimFloat.of_uint63 (Uint63.of_Z z))
                  = binary_normalize prec emax z 0 false).
  { rewrite of_uint63_spec. f_equal. rewrite Uint63.of_Z_spec.
    apply Z.mod_small. change Uint63.wB with (2 ^ 63). lia. }
  split; [ exact Hspec | ].
  unfold Spec.represents. rewrite Hspec.
  destruct z as [|p|p]; [ left; split; reflexivity | right | lia ].
  pose proof (digits2_pos_bounds p) as Hd.
  assert (Zpos (digits2_pos p) < 53).
  { destruct (Z.lt_ge_cases (Zpos (digits2_pos p)) 53) as [|Hge];
      [ assumption | ].
    assert (2 ^ 52 <= 2 ^ (Zpos (digits2_pos p) - 1))
      by (apply Z.pow_le_mono_r; lia).
    lia. }
  destruct (binary_normalize_small p ltac:(assumption)) as (k & Hk & ->).
  exists (Pos.iter xO p k), (- Zpos k). repeat split; [ lia | ].
  rewrite iter_xO_value, Z.opp_involutive. reflexivity.
Qed.

(* ------------------------------------------------------------------ *)
(** ** Payload decoder *)
(* ------------------------------------------------------------------ *)

(** C3: for a retained frame (the byte range the scanner hands over) the
    decoder takes [message_type] from byte 0, the address from byte 2 and
    [payload_type] from byte 4; the payload is every byte from byte 5 to
    the end of that range, its last byte included: nothing is set aside as
    a trailing byte, and the element count is
    [(len frame - 5 - prefix) / width]; bit 4 of [payload_type] is the
    timestamp flag: when it is set the payload starts with a 4-byte seconds
    field and a 2-byte ticks field, when it is clear there is no prefix;
    the rest is read as elements of the resolved width, one per chunk; all
    fields are little-endian, elements and the two timestamp fields alike:
    an unsigned element is the number whose digit of weight [256^i] is
    byte [i], a signed one its two's complement reading, a float the
    IEEE 754 binary32 reading of that number. *)
Theorem C3_payload_decoder
        (types : option (list Z)) (rows : list (list pyval))
        (b0 b1 b2 b3 b4 : byte) (c : ascii) (w : Z) (chunks : list bytes) :
  py_in (int_of_byte b0) types = Returns true ->
  PayloadLookup.get_data_char (int_of_byte b4) = Returns (String c EmptyString) ->
  code_size c = Some w ->
  Forall (fun ch => len ch = w) chunks ->
  (Z.testbit (int_of_byte b4) 4 = false ->
   process_message types (b0 :: b1 :: b2 :: b3 :: b4 :: List.concat chunks) rows
   = Returns (rows ++ [[PyInt (int_of_byte b0); PyInt (int_of_byte b2);
                        PyFloat PrimFloat.nan] ++ map (unpack_code c) chunks]))
  /\ (Z.testbit (int_of_byte b4) 4 = true ->
      forall s0 s1 s2 s3 t0 t1 : byte,
        process_message types
          (b0 :: b1 :: b2 :: b3 :: b4
              :: s0 :: s1 :: s2 :: s3 :: t0 :: t1 :: List.concat chunks) rows
        = Returns
            (rows ++
               [[PyInt (int_of_byte b0); PyInt (int_of_byte b2);
                 PyFloat
                   (PrimFloat.add
                      (PrimFloat.of_uint63
                         (Uint63.of_Z
                            (int_of_byte s0 + 256 * int_of_byte s1
                             + 65536 * int_of_byte s2
                             + 16777216 * int_of_byte s3)))
                      (PrimFloat.mul
                         (PrimFloat.of_uint63
                            (Uint63.of_Z (int_of_byte t0 + 256 * int_of_byte t1)))
                         0x1.0c6f7a0b5ed8dp-15%float))]
                  ++ map (unpack_code c) chunks]))
  /\ (forall ch : bytes,
        In ch chunks ->
        if Z.testbit (int_of_byte b4) 6 then
          exists u, Spec.unsigned_value ch u
                    /\ unpack_code c ch = PyFloat (Spec.binary32_float u)
        else if Z.testbit (int_of_byte b4) 7 then
          exists z, unpack_code c ch = PyInt z /\ Spec.signed_value ch z
        else
          exists z, unpack_code c ch = PyInt z /\ Spec.unsigned_value ch z)
  /\ (forall prefix : bytes,
        len chunks
        = (len (b0 :: b1 :: b2 :: b3 :: b4 :: prefix ++ List.concat chunks)
           - 5 - len prefix) / w
        /\ (forall (init : list bytes) (last_chunk : bytes),
              chunks = init ++ [last_chunk] ->
              last (b0 :: b1 :: b2 :: b3 :: b4 :: prefix ++ List.concat chunks) x00
              = last last_chunk x00))
  /\ (forall (data : bytes) (fuel : nat) (frame_start length_byte : Z)
             (rows' : list (list pyval)),
        frame_start < len data ->
        bytes_getitem data (frame_start + 1) = Returns length_byte ->
        let frame_end := frame_start + length_byte + 1 in
        process_message types (slice data frame_start frame_end) rows
        = Returns rows' ->
        scan data (process_message types) (S fuel) frame_start rows
        = scan data (process_message types) fuel (frame_end + 1) rows').
Proof.
  intros Hin Hget Hc Hchunks.
  pose proof (code_size_pos c w Hc) as Hw.
  split; [ | split; [ | split; [ | split ] ] ].
  - intros Hbit. rewrite process_message_retained by assumption.
    now rewrite (decode_message_plain _ b0 b1 b2 b3 b4 c w chunks).
  - intros Hbit s0 s1 s2 s3 t0 t1.
    rewrite process_message_retained by assumption.
    rewrite (decode_message_timestamped _ b0 b1 b2 b3 b4 c w chunks)
      by assumption.
    pose proof (le_uint_range [s0; s1; s2; s3]) as Hs.
    pose proof (le_uint_range [t0; t1]) as Ht.
    rewrite !float_of_int_nonneg by lia.
    replace (int_of_byte s0 + 256 * int_of_byte s1
             + 65536 * int_of_byte s2 + 16777216 * int_of_byte s3)
      with (le_uint [s0; s1; s2; s3]) by (cbn [le_uint]; lia).
    replace (int_of_byte t0 + 256 * int_of_byte t1)
      with (le_uint [t0; t1]) by (cbn [le_uint]; lia).
    reflexivity.
  - intros ch Hch. rewrite Forall_forall in Hchunks.
    specialize (Hchunks ch Hch).
    destruct (get_data_char_class b4 c Hget) as (Hfloat & Hsigned & Hwidth).
    destruct (get_data_char_width b4 _ Hget) as (c' & [= <-] & Hc' & _).
    unfold unpack_code. rewrite Hfloat, Hsigned.
    destruct (Z.testbit (int_of_byte b4) 6) eqn:H6.
    + exists (le_uint ch). split; [ apply unsigned_value_le_uint | ].
      rewrite binary32_to_spec_float; [ reflexivity | ].
      pose proof (le_uint_range ch) as Hr.
      assert (Hlen : len ch = 4) by (rewrite Hchunks; specialize (Hwidth Hfloat); congruence).
      rewrite Hlen in Hr. exact Hr.
    + destruct (Z.testbit (int_of_byte b4) 7).
      * eexists. split; [ reflexivity | ].
        apply signed_value_to_signed. lia.
      * eexists. split; [ reflexivity | ]. apply unsigned_value_le_uint.
  - intros prefix. split.
    + rewrite !len_cons, len_app, (len_concat_chunks w chunks Hchunks).
      replace (1 + (1 + (1 + (1 + (1 + (len prefix + w * len chunks)))))
               - 5 - len prefix) with (len chunks * w) by lia.
      now rewrite Z.div_mul by lia.
    + intros init last_chunk ->.
      assert (Hlast : len last_chunk = w).
      { rewrite Forall_forall in Hchunks. apply Hchunks.
        apply in_or_app. right. now left. }
      destruct last_chunk as [|x l]; [ cbn in Hlast; lia | ].
      rewrite concat_app. cbn [List.concat]. rewrite app_nil_r.
      change (b0 :: b1 :: b2 :: b3 :: b4
                 :: prefix ++ List.concat init ++ x :: l)
        with ([b0; b1; b2; b3; b4]
                ++ prefix ++ List.concat init ++ x :: l).
      rewrite !app_assoc. apply last_app_cons.
  - intros data fuel s l rows' Hs Hl frame_end Hbody. subst frame_end.
    rewrite (scan_iteration data _ fuel s l rows Hs Hl). now rewrite Hbody.
Qed.

(** The decoder on four frames: a timestamped frame with an unsigned
    16-bit element, a frame of two signed bytes, a frame of two floats, and
    an eight-byte frame of unsigned bytes whose last byte, 0x38, comes out
    as the last element. *)
Lemma C3_payload_decoder_witness :
  process_message (Some [1; 2; 3])
    [x03; x0c; x05; x00; x12; x01; x00; x00; x00; x01; x00; x02; x01] []
  = Returns [[PyInt 3; PyInt 5; PyFloat 0x1.000218def416cp+0%float; PyInt 258]]
  /\ process_message (Some [1; 2; 3])
       [x02; x06; x07; x00; x81; xff; x80] []
     = Returns [[PyInt 2; PyInt 7; PyFloat PrimFloat.nan;
                 PyInt (-1); PyInt (-128)]]
  /\ process_message (Some [1; 2; 3])
       [x01; x0c; x09; x00; x44; x00; x00; x80; x3f; x00; x00; x20; xc0] []
     = Returns [[PyInt 1; PyInt 9; PyFloat PrimFloat.nan;
                 PyFloat 1%float; PyFloat (-2.5)%float]]
  /\ process_message (Some [1; 2; 3])
       [x01; x07; x05; x00; x01; x2a; x00; x38] []
     = Returns [[PyInt 1; PyInt 5; PyFloat PrimFloat.nan;
                 PyInt 42; PyInt 0; PyInt 56]].
Proof.
  split; [ | split; [ | split ] ].
  - destruct (C3_payload_decoder (Some [1; 2; 3]) [] x03 x0c x05 x00 x12
                "H"%char 2 [[x02; x01]]
                eq_refl eq_refl eq_refl
                (Forall_cons [x02; x01] (eq_refl 2) (Forall_nil _)))
      as (_ & H & _).
    exact (H eq_refl x01 x00 x00 x00 x01 x00).
  - destruct (C3_payload_decoder (Some [1; 2; 3]) [] x02 x06 x07 x00 x81
                "b"%char 1 [[xff]; [x80]]
                eq_refl eq_refl eq_refl
                (Forall_cons [xff] (eq_refl 1)
                   (Forall_cons [x80] (eq_refl 1) (Forall_nil _))))
      as (H & _).
    exact (H eq_refl).
  - destruct (C3_payload_decoder (Some [1; 2; 3]) [] x01 x0c x09 x00 x44
                "f"%char 4 [[x00; x00; x80; x3f]; [x00; x00; x20; xc0]]
                eq_refl eq_refl eq_refl
                (Forall_cons [x00; x00; x80; x3f] (eq_refl 4)
                   (Forall_cons [x00; x00; x20; xc0] (eq_refl 4)
                      (Forall_nil _))))
      as (H & _).
    exact (H eq_refl).
  - destruct (C3_payload_decoder (Some [1; 2; 3]) [] x01 x07 x05 x00 x01
                "B"%char 1 [[x2a]; [x00]; [x38]]
                eq_refl eq_refl eq_refl
                (Forall_cons [x2a] (eq_refl 1)
                   (Forall_cons [x00] (eq_refl 1)
                      (Forall_cons [x38] (eq_refl 1) (Forall_nil _)))))
      as (H & _).
    exact (H eq_refl).
Defined.

(** C4: a retained frame with the timestamp flag whose prefix holds
    [seconds] (4 bytes) and [ticks] (2 bytes), little-endian, yields a row
    whose timestamp is [seconds + ticks * 32e-6] in binary64 arithmetic, as
    Python computes it, for every [seconds] in the [uint32] range and every
    [ticks] in the [uint16] range: both integers convert to binary64 without
    rounding, the factor is the binary64 number nearest to 32/10^6, and the
    product and the sum are the IEEE 754 ones. *)
Theorem C4_timestamp_formula
        (types : option (list Z)) (rows : list (list pyval))
        (b0 b1 b2 b3 b4 : byte) (c : ascii) (w : Z) (chunks : list bytes)
        (seconds ticks : Z) :
  py_in (int_of_byte b0) types = Returns true ->
  PayloadLookup.get_data_char (int_of_byte b4) = Returns (String c EmptyString) ->
  code_size c = Some w ->
  Forall (fun ch => len ch = w) chunks ->
  Z.testbit (int_of_byte b4) 4 = true ->
  0 <= seconds < 2 ^ 32 ->
  0 <= ticks < 2 ^ 16 ->
  let float_seconds := PrimFloat.of_uint63 (Uint63.of_Z seconds) in
  let float_ticks := PrimFloat.of_uint63 (Uint63.of_Z ticks) in
  let tick := 0x1.0c6f7a0b5ed8dp-15%float in
  let timestamp := PrimFloat.add float_seconds (PrimFloat.mul float_ticks tick) in
  process_message types
    (b0 :: b1 :: b2 :: b3 :: b4
        :: Spec.le_bytes 4 seconds ++ Spec.le_bytes 2 ticks ++ List.concat chunks)
    rows
  = Returns
      (rows ++
         [[PyInt (int_of_byte b0); PyInt (int_of_byte b2); PyFloat timestamp]
            ++ map (unpack_code c) chunks])
  /\ Spec.unsigned_value (Spec.le_bytes 4 seconds) seconds
  /\ Spec.unsigned_value (Spec.le_bytes 2 ticks) ticks
  /\ Spec.represents float_seconds seconds
  /\ Spec.represents float_ticks ticks
  /\ (Prim2SF tick = S754_finite false 4722366482869645 (-67)
      /\ 2 ^ 52 <= 4722366482869645 < 2 ^ 53
      /\ Z.abs (2 * (4722366482869645 * 10 ^ 6 - 32 * 2 ^ 67)) <= 10 ^ 6)
  /\ Prim2SF timestamp
     = SF64add (binary_normalize prec emax seconds 0 false)
               (SF64mul (binary_normalize prec emax ticks 0 false)
                        (S754_finite false 4722366482869645 (-67))).
Proof.
  intros Hin Hget Hc Hchunks Hbit Hs Ht. cbv zeta.
  destruct (of_uint63_exact seconds ltac:(lia)) as (Hs_spec & Hs_exact).
  destruct (of_uint63_exact ticks ltac:(lia)) as (Ht_spec & Ht_exact).
  assert (Hle_s : le_uint (Spec.le_bytes 4 seconds) = seconds)
    by (apply le_uint_le_bytes; cbn; lia).
  assert (Hle_t : le_uint (Spec.le_bytes 2 ticks) = ticks)
    by (apply le_uint_le_bytes; cbn; lia).
  split; [ | split; [ | split; [ | split; [ | split; [ | split ] ] ] ] ].
  - rewrite process_message_retained by assumption.
    cbn [Spec.le_bytes app].
    rewrite (decode_message_timestamped _ b0 b1 b2 b3 b4 c w chunks)
      by assumption.
    change [Spec.byte_of_int seconds; Spec.byte_of_int (seconds / 256);
            Spec.byte_of_int (seconds / 256 / 256);
            Spec.byte_of_int (seconds / 256 / 256 / 256)]
      with (Spec.le_bytes 4 seconds).
    change [Spec.byte_of_int ticks; Spec.byte_of_int (ticks / 256)]
      with (Spec.le_bytes 2 ticks).
    rewrite Hle_s, Hle_t, !float_of_int_nonneg by lia.
    reflexivity.
  - rewrite <- Hle_s at 2. apply unsigned_value_le_uint.
  - rewrite <- Hle_t at 2. apply unsigned_value_le_uint.
  - exact Hs_exact.
  - exact Ht_exact.
  - repeat split; vm_compute; congruence.
  - rewrite FloatAxioms.add_spec, FloatAxioms.mul_spec, Hs_spec, Ht_spec.
    reflexivity.
Qed.

(** The timestamp at the top of both ranges, and one second made of
    31250 ticks. *)
Lemma C4_timestamp_formula_witness :
  process_message (Some [1; 2; 3])
    [x03; x0c; x05; x00; x12; xff; xff; xff; xff; xff; xff; x02; x01] []
  = Returns [[PyInt 3; PyInt 5; PyFloat 0x1.0000000118dcep+32%float; PyInt 258]]
  /\ process_message (Some [1; 2; 3])
       [x03; x0c; x05; x00; x12; x00; xf1; x53; x65; x12; x7a; x02; x01] []
     = Returns [[PyInt 3; PyInt 5; PyFloat 1700000001%float; PyInt 258]].
Proof.
  split.
  - apply (C4_timestamp_formula (Some [1; 2; 3]) [] x03 x0c x05 x00 x12
             "H"%char 2 [[x02; x01]] 4294967295 65535);
      first [ reflexivity | lia | repeat constructor ].
  - apply (C4_timestamp_formula (Some [1; 2; 3]) [] x03 x0c x05 x00 x12
             "H"%char 2 [[x02; x01]] 1700000000 31250);
      first [ reflexivity | lia | repeat constructor ].
Defined.

(* ------------------------------------------------------------------ *)
(** ** Failures of the decoder *)
(* ------------------------------------------------------------------ *)

(** C6: a retained frame whose payload, once the timestamp prefix (6 bytes
    with the flag, none without) is taken off, is not a whole number of
    elements of the resolved width makes the decode fail with
    [struct.error] (the [MalformedPayload] failure of the specification):
    the loop body raises before it appends anything, and the exception is
    the outcome of the call, so no row is returned for that frame. *)
Theorem C6_malformed_payload
        (types : option (list Z)) (rows : list (list pyval))
        (b0 b1 b2 b3 b4 : byte) (payload : bytes) (c : ascii) (w : Z) :
  py_in (int_of_byte b0) types = Returns true ->
  PayloadLookup.get_data_char (int_of_byte b4) = Returns (String c EmptyString) ->
  code_size c = Some w ->
  (len payload - (if Z.testbit (int_of_byte b4) 4 then 6 else 0)) mod w <> 0 ->
  process_message types (b0 :: b1 :: b2 :: b3 :: b4 :: payload) rows
  = Raises struct_error
  /\ (forall (data : bytes) (fuel : nat) (s l : Z),
        s < len data ->
        bytes_getitem data (s + 1) = Returns l ->
        slice data s (s + l + 1) = b0 :: b1 :: b2 :: b3 :: b4 :: payload ->
        scan data (process_message types) (S fuel) s rows
        = Some (Raises struct_error)).
Proof.
  intros Hin Hget Hc Hmod.
  assert (Hbody : process_message types (b0 :: b1 :: b2 :: b3 :: b4 :: payload) rows
                  = Raises struct_error).
  { rewrite process_message_retained by assumption.
    rewrite (decode_message_malformed _ b0 b1 b2 b3 b4 payload c w);
      [ reflexivity | assumption | assumption | ].
    now rewrite has_timestamp_bit. }
  split; [ exact Hbody | ].
  intros data fuel s l Hs Hl Hmsg.
  apply (scan_body_raises data _ fuel s l); [ assumption | assumption | ].
  now rewrite Hmsg.
Qed.

(** [C6_malformed_payload] on a frame with three payload bytes of 16-bit
    elements. *)
Lemma C6_malformed_payload_witness :
  to_list [x01; x07; x05; x00; x02; x2a; x37; x37; x00] true true true
  = Some (Raises struct_error).
Proof.
  refine (proj2 (C6_malformed_payload (Some [1; 2; 3]) []
                   x01 x07 x05 x00 x02 [x2a; x37; x37] "H"%char 2
                   eq_refl eq_refl eq_refl _)
                [x01; x07; x05; x00; x02; x2a; x37; x37; x00] _ 0 7
                eq_refl eq_refl eq_refl).
  vm_compute. discriminate.
Defined.

(** C10: a retained frame whose payload type byte has a zero width field
    (bits 0-3) makes the decode raise [ZeroDivisionError] in the element
    count, before the table lookup and the unpacking: the lookup, which
    would raise [KeyError] on such a byte, is not reached, and no row is
    returned. *)
Theorem C10_zero_width_division
        (types : option (list Z)) (rows : list (list pyval))
        (b0 b1 b2 b3 b4 : byte) (payload : bytes) :
  py_in (int_of_byte b0) types = Returns true ->
  Z.land (int_of_byte b4) 0x0F = 0 ->
  process_message types (b0 :: b1 :: b2 :: b3 :: b4 :: payload) rows
  = Raises ZeroDivisionError
  /\ PayloadLookup.get_data_char (int_of_byte b4) = Raises KeyError
  /\ (forall (data : bytes) (fuel : nat) (s l : Z),
        s < len data ->
        bytes_getitem data (s + 1) = Returns l ->
        slice data s (s + l + 1) = b0 :: b1 :: b2 :: b3 :: b4 :: payload ->
        scan data (process_message types) (S fuel) s rows
        = Some (Raises ZeroDivisionError)).
Proof.
  intros Hin Hw.
  assert (Hbody : process_message types (b0 :: b1 :: b2 :: b3 :: b4 :: payload) rows
                  = Raises ZeroDivisionError).
  { rewrite process_message_retained by assumption.
    now rewrite decode_message_zero_width. }
  split; [ exact Hbody | split ].
  - destruct b4; vm_compute in Hw; try discriminate Hw; reflexivity.
  - intros data fuel s l Hs Hl Hmsg.
    apply (scan_body_raises data _ fuel s l); [ assumption | assumption | ].
    now rewrite Hmsg.
Qed.

(** [C10_zero_width_division] on a frame of payload type 0x40. *)
Lemma C10_zero_width_division_witness :
  to_list [x01; x05; x05; x00; x40; x2a; x36] true true true
  = Some (Raises ZeroDivisionError).
Proof.
  refine (proj2 (proj2 (C10_zero_width_division (Some [1; 2; 3]) []
                          x01 x05 x05 x00 x40 [x2a] eq_refl eq_refl))
                [x01; x05; x05; x00; x40; x2a; x36] _ 0 5
                eq_refl eq_refl eq_refl).
Defined.

(* ------------------------------------------------------------------ *)
(** ** Buffers made of frames *)
(* ------------------------------------------------------------------ *)

Lemma getitem_app_mid {A : Type} (pre f rest : list A) (i : Z) :
  0 <= i < len f ->
  getitem (pre ++ f ++ rest) (len pre + i) = getitem f i.
Proof.
  intros Hi. pose proof (len_nonneg pre).
  rewrite !getitem_nonneg by lia.
  rewrite nth_error_app2 by (unfold len; lia).
  replace (Z.to_nat (len pre + i) - List.length pre)%nat with (Z.to_nat i)
    by (unfold len; lia).
  rewrite nth_error_app1 by (unfold len in Hi; lia). reflexivity.
Qed.

Lemma bytes_getitem_app_mid (pre f rest : bytes) (i : Z) :
  0 <= i < len f ->
  bytes_getitem (pre ++ f ++ rest) (len pre + i) = bytes_getitem f i.
Proof. intros Hi. unfold bytes_getitem. now rewrite getitem_app_mid. Qed.

Lemma slice_app_mid {A : Type} (pre l : list A) (k : Z) :
  0 <= k ->
  slice (pre ++ l) (len pre) (len pre + k) = firstn (Z.to_nat k) l.
Proof.
  intros Hk. unfold slice, clamp_index. rewrite len_app.
  pose proof (len_nonneg pre). pose proof (len_nonneg l).
  destruct (Z.ltb_spec (len pre) 0); [ lia | ].
  destruct (Z.ltb_spec (len pre + k) 0); [ lia | ].
  rewrite (Z.min_l (len pre)) by lia.
  replace (Z.to_nat (len pre)) with (List.length pre) by (unfold len; lia).
  rewrite skipn_app, Nat.sub_diag, skipn_all, skipn_O. cbn [app].
  destruct (Z.le_gt_cases (len pre + k) (len pre + len l)).
  - rewrite Z.min_l by lia. f_equal. lia.
  - rewrite Z.min_r by lia.
    rewrite !firstn_all2 by (unfold len in *; lia). reflexivity.
Qed.

Lemma framed_length (f : bytes) : Spec.framed f -> 2 <= len f.
Proof.
  intros H. apply bytes_getitem_Returns_lt in H; lia.
Qed.

(** The frame the scanner cuts for a framed [f] is [f] without its last
    byte. *)
Lemma slice_framed (pre f rest : bytes) :
  Spec.framed f ->
  slice (pre ++ f ++ rest) (len pre) (len pre + (len f - 2) + 1)
  = Spec.frame_message f.
Proof.
  intros Hf. apply framed_length in Hf.
  replace (len pre + (len f - 2) + 1) with (len pre + (len f - 1)) by lia.
  rewrite slice_app_mid by lia.
  unfold Spec.frame_message. rewrite removelast_firstn_len.
  rewrite firstn_app.
  replace (Z.to_nat (len f - 1) - List.length f)%nat with 0%nat
    by (unfold len in *; lia).
  rewrite firstn_O, app_nil_r. f_equal. unfold len in *. lia.
Qed.

Lemma foldM_app {A B : Type} (body : B -> A -> outcome A) (l1 l2 : list B) (acc : A) :
  foldM body (l1 ++ l2) acc = (acc' <- foldM body l1 acc ;; foldM body l2 acc').
Proof.
  revert acc. induction l1 as [|x l1 IH]; intros acc; cbn; [ reflexivity | ].
  destruct (body x acc); cbn; [ apply IH | reflexivity ].
Qed.

Lemma length_concat_framed (fs : list bytes) :
  Forall Spec.framed fs -> (List.length fs <= List.length (List.concat fs))%nat.
Proof.
  induction 1 as [|f fs Hf _ IH]; cbn; [ lia | ].
  apply framed_length in Hf. rewrite length_app. unfold len in Hf. lia.
Qed.

(** Over a run of framed frames the loop visits the frames one by one and
    arrives at the byte after the last. *)
Lemma scan_framed {A : Type} (body : bytes -> A -> outcome A) (tail : bytes) :
  forall (fs : list bytes) (pre : bytes) (fuel : nat) (acc : A),
    Forall Spec.framed fs ->
    scan (pre ++ List.concat fs ++ tail) body (List.length fs + fuel) (len pre) acc
    = match foldM body (map Spec.frame_message fs) acc with
      | Raises e => Some (Raises e)
      | Returns acc' =>
          scan (pre ++ List.concat fs ++ tail) body fuel
               (len pre + len (List.concat fs)) acc'
      end.
Proof.
  induction fs as [|f fs IH]; intros pre fuel acc Hfs.
  - cbn. now rewrite Z.add_0_r.
  - inversion Hfs as [|? ? Hf Hfs']; subst.
    pose proof (framed_length f Hf) as Hlen.
    cbn [List.concat List.length Nat.add map foldM].
    rewrite <- (app_assoc f).
    rewrite (scan_iteration _ body _ (len pre) (len f - 2)).
    + rewrite (slice_framed pre f _ Hf).
      destruct (body (Spec.frame_message f) acc) as [acc'|e]; cbn [bind];
        [ | reflexivity ].
      replace (len pre + (len f - 2) + 1 + 1) with (len (pre ++ f))
        by (rewrite len_app; lia).
      rewrite (app_assoc pre f). rewrite IH by assumption.
      rewrite !len_app. now rewrite Z.add_assoc.
    + rewrite len_app, (len_app f).
      pose proof (len_nonneg (List.concat fs ++ tail)). lia.
    + rewrite bytes_getitem_app_mid by lia. exact Hf.
Qed.

(** A buffer that is exactly a run of framed frames. *)
Lemma to_list_loop_framed (fs : list bytes) (types : option (list Z)) :
  Forall Spec.framed fs ->
  to_list_loop (List.concat fs) types
  = Some (foldM (process_message types) (map Spec.frame_message fs) []).
Proof.
  intros Hfs. unfold to_list_loop, enough_fuel.
  pose proof (length_concat_framed fs Hfs) as Hle.
  replace (S (List.length (List.concat fs)))
    with (List.length fs + S (List.length (List.concat fs) - List.length fs))%nat
    by lia.
  pose proof (scan_framed (process_message types) [] fs [] 
                (S (List.length (List.concat fs) - List.length fs)) [] Hfs) as H.
  rewrite app_nil_r in H. cbn [app len List.length Z.of_nat] in H.
  rewrite H.
  destruct (foldM _ _ _) as [rows|e]; [ | reflexivity ].
  apply scan_exit. lia.
Qed.

(* ------------------------------------------------------------------ *)
(** ** Category filtering and row order *)
(* ------------------------------------------------------------------ *)

(** A framed frame starts with its type byte, and so does the message cut
    from it. *)
Lemma frame_message_head (f : bytes) :
  Spec.framed f ->
  exists b0 rest, Spec.frame_message f = b0 :: rest
                  /\ Spec.frame_type f = int_of_byte b0.
Proof.
  intros Hf. apply framed_length in Hf.
  destruct f as [|b0 [|b1 r]]; cbn in Hf; try lia.
  exists b0, (removelast (b1 :: r)). split; reflexivity.
Qed.

(** Every row starts with the message type it was decoded for. *)
Lemma decode_message_row_type (mt : Z) (message : bytes) (row : list pyval) :
  decode_message mt message = Returns row ->
  hd_error row = Some (PyInt mt).
Proof.
  unfold decode_message.
  repeat match goal with
         | |- context [bind ?c _] => destruct c; cbn [bind]; try discriminate
         | |- context [if ?b then _ else _] => destruct b
         end;
    intros [= <-]; reflexivity.
Qed.

(** Rows come out in frame order: retained frames contribute their row,
    the others nothing. *)
Lemma foldM_rows (types : list Z) :
  forall (fs : list bytes) (rows acc : list (list pyval)),
    Forall Spec.framed fs ->
    Forall2 (fun f row => Spec.frame_row f = Returns row)
            (filter (Spec.retained types) fs) rows ->
    foldM (process_message (Some types)) (map Spec.frame_message fs) acc
    = Returns (acc ++ rows).
Proof.
  induction fs as [|f fs IH]; intros rows acc Hfs Hrows.
  - inversion Hrows; subst. cbn. now rewrite app_nil_r.
  - inversion Hfs as [|? ? Hf Hfs']; subst.
    destruct (frame_message_head f Hf) as (b0 & rest & Hmsg & Htype).
    cbn [map foldM filter] in *.
    unfold Spec.retained at 1 in Hrows.
    rewrite Hmsg. rewrite Htype in Hrows.
    destruct (existsb (Z.eqb (int_of_byte b0)) types) eqn:Hret.
    + inversion Hrows as [|? row ? rows' Hrow Hrows']; subst.
      unfold Spec.frame_row in Hrow. rewrite Hmsg, Htype in Hrow.
      rewrite process_message_retained by (cbn; now rewrite Hret).
      rewrite Hrow. cbn [bind].
      rewrite (IH rows' (acc ++ [row])) by assumption.
      now rewrite <- app_assoc.
    + rewrite process_message_skipped by (cbn; now rewrite Hret).
      cbn [bind]. now apply IH.
Qed.

Lemma Forall2_length_rows {X Y : Type} (R : X -> Y -> Prop) (l : list X) (l' : list Y) :
  Forall2 R l l' -> List.length l' = List.length l.
Proof. induction 1; cbn; congruence. Qed.

(** C5: rows follow the frames of the buffer, in order, one row for each
    retained frame and none for the others.  In particular, on a buffer of
    three frames of message types 1, 2 and 3, in any order, decoding with
    read and event included and write excluded returns exactly the rows of
    the type-1 and the type-3 frame, in the order of their frames, and no
    row of type 2. *)
Theorem C5_filter_keeps_frame_order :
  (forall (fs : list bytes) (types : list Z) (rows : list (list pyval)),
      Forall Spec.framed fs ->
      Forall2 (fun f row => Spec.frame_row f = Returns row)
              (filter (Spec.retained types) fs) rows ->
      to_list_loop (List.concat fs) (Some types) = Some (Returns rows))
  /\ (forall (fs : list bytes) (rows : list (list pyval)),
        Forall Spec.framed fs ->
        Permutation (map Spec.frame_type fs) [1; 2; 3] ->
        Forall2 (fun f row => Spec.frame_row f = Returns row)
                (filter (fun f => negb (Spec.frame_type f =? 2)) fs) rows ->
        to_list (List.concat fs) true false true = Some (Returns rows)
        /\ List.length rows = 2%nat
        /\ map (@hd_error pyval) rows
           = map (fun t => Some (PyInt t))
                 (filter (fun t => negb (t =? 2)) (map Spec.frame_type fs))).
Proof.
  split.
  - intros fs types rows Hfs Hrows.
    rewrite to_list_loop_framed by assumption.
    now rewrite (foldM_rows types fs rows []).
  - intros fs rows Hfs Hperm Hrows.
    assert (Hfilter : filter (Spec.retained [1; 3]) fs
                      = filter (fun f => negb (Spec.frame_type f =? 2)) fs).
    { apply filter_ext_in. intros f Hf.
      assert (Ht : In (Spec.frame_type f) [1; 2; 3]).
      { apply (Permutation_in _ Hperm). now apply in_map. }
      unfold Spec.retained. cbn in Ht.
      destruct Ht as [<- | [<- | [<- | []]]]; reflexivity. }
    split; [ | split ].
    + unfold to_list. cbn [unpack_message_types_to_process app].
      rewrite to_list_loop_framed by assumption.
      rewrite (foldM_rows [1; 3] fs rows []); [ reflexivity | assumption | ].
      now rewrite Hfilter.
    + rewrite (Forall2_length_rows _ _ _ Hrows).
      rewrite <- (length_map Spec.frame_type).
      rewrite <- (filter_map_swap (fun t => negb (t =? 2)) Spec.frame_type).
      change 2%nat with
        (List.length (filter (fun t => negb (t =? 2)) [1; 2; 3])).
      apply Permutation_length.
      clear -Hperm.
      induction Hperm; cbn; repeat (match goal with
                                    | |- context [negb (?t =? 2)] =>
                                        destruct (negb (t =? 2))
                                    end);
        eauto using Permutation.
    + rewrite (filter_map_swap (fun t => negb (t =? 2)) Spec.frame_type).
      clear -Hrows.
      induction Hrows as [|f row fs' rows' Hrow _ IH]; [ reflexivity | ].
      cbn [map]. rewrite IH. f_equal.
      now apply decode_message_row_type in Hrow.
Qed.

(** [C5_filter_keeps_frame_order] on an event, a write and a read frame,
    in that order. *)
Lemma C5_filter_keeps_frame_order_witness :
  to_list
    [x03; x0c; x05; x00; x12; x01; x00; x00; x00; x01; x00; x02; x01; x99;
     x02; x05; x05; x00; x81; xff; x37;
     x01; x05; x05; x00; x01; x2a; x36] true false true
  = Some (Returns [[PyInt 3; PyInt 5; PyFloat 0x1.000218def416cp+0%float; PyInt 258];
                   [PyInt 1; PyInt 5; PyFloat NAN; PyInt 42]]).
Proof.
  refine (proj1 (proj2 C5_filter_keeps_frame_order
                   [[x03; x0c; x05; x00; x12; x01; x00; x00; x00; x01; x00;
                     x02; x01; x99];
                    [x02; x05; x05; x00; x81; xff; x37];
                    [x01; x05; x05; x00; x01; x2a; x36]]
                   _ _ _ _)).
  - repeat constructor.
  - apply perm_trans with [2; 3; 1]; [ apply perm_swap | ].
    apply perm_trans with [2; 1; 3]; [ apply perm_skip, perm_swap | ].
    apply perm_swap.
  - repeat constructor.
Defined.

(* ------------------------------------------------------------------ *)
(** ** The end-to-end example *)
(* ------------------------------------------------------------------ *)

(** The length byte 7 of the example makes the frame eight bytes long, so
    the payload is the three bytes after the payload type byte. *)
Lemma C7_example_counterexample :
  to_list [x01; x07; x05; x00; x01; x2a; x00; x38] true true true
  <> Some (Returns [[PyInt 1; PyInt 5; PyFloat NAN; PyInt 42]]).
Proof. vm_compute. discriminate. Qed.

(** C7, amended: decoding the single-frame buffer
    [[0x01, 0x07, 0x05, 0x00, 0x01, 0x2A, 0x00, CHKSUM]] with all three
    categories included returns exactly one row, with message type 1,
    address 5, the [NAN] timestamp, and the elements [[42, 0, CHKSUM]]:
    the two bytes after 0x2A are decoded as elements too. *)
Theorem C7_example_decodes_three_elements (chksum : byte) :
  to_list [x01; x07; x05; x00; x01; x2a; x00; chksum] true true true
  = Some (Returns [[PyInt 1; PyInt 5; PyFloat NAN;
                    PyInt 42; PyInt 0; PyInt (int_of_byte chksum)]]).
Proof. destruct chksum; reflexivity. Qed.

(** With the length byte that counts the bytes after it, the same header
    and element decode to the single element 42. *)
Lemma example_with_length_5 (chksum : byte) :
  to_list [x01; x05; x05; x00; x01; x2a; chksum] true true true
  = Some (Returns [[PyInt 1; PyInt 5; PyFloat NAN; PyInt 42]]).
Proof. destruct chksum; reflexivity. Qed.

(* ------------------------------------------------------------------ *)
(** ** Frames cut short by the end of the buffer *)
(* ------------------------------------------------------------------ *)

Lemma scan_header_missing {A : Type} (data : bytes)
      (body : bytes -> A -> outcome A) (fuel : nat) (s : Z) (acc : A) :
  s < len data -> len data <= s + 1 ->
  scan data body (S fuel) s acc = Some (Raises IndexError).
Proof.
  intros Hs He. cbn [scan]. destruct (Z.ltb_spec s (len data)); [ | lia ].
  now rewrite bytes_getitem_out.
Qed.

(** A buffer whose last frame runs to or past the end of the buffer is
    decoded without complaint: no record is refused. *)
Lemma C9_truncated_counterexample :
  bytes_getitem [x01; x07; x05; x00; x01; x2a] 1 = Returns 7
  /\ 0 + 7 + 1 > len [x01; x07; x05; x00; x01; x2a]
  /\ to_list [x01; x07; x05; x00; x01; x2a] true true true
     = Some (Returns [[PyInt 1; PyInt 5; PyFloat NAN; PyInt 42]]).
Proof. repeat split. Qed.

(** C9, amended: there is no truncation check.  After a run of complete
    frames, a last frame whose [next_start] exceeds the buffer length is
    cut at the end of the buffer and handed to the decoder like any other
    frame, and the scan ends after it: the call returns or raises as the
    decoder does on those bytes.  The scanner itself fails only when the
    length byte is missing, with [IndexError]. *)
Theorem C9_truncated_frame_is_decoded
        (fs : list bytes) (tail : bytes) (types : option (list Z)) :
  Forall Spec.framed fs ->
  (forall l : Z,
      bytes_getitem tail 1 = Returns l ->
      len tail < l + 2 ->
      to_list_loop (List.concat fs ++ tail) types
      = Some (foldM (process_message types)
                    (map Spec.frame_message fs ++ [tail]) []))
  /\ (len tail = 1 ->
      to_list_loop (List.concat fs ++ tail) types
      = Some (rows <- foldM (process_message types)
                            (map Spec.frame_message fs) [] ;;
              Raises IndexError)).
Proof.
  intros Hfs.
  pose proof (length_concat_framed fs Hfs) as Hle.
  pose proof (scan_framed (process_message types) tail fs []) as Hscan.
  cbn [app len List.length Z.of_nat Z.add] in Hscan.
  change (Z.of_nat (List.length (List.concat fs))) with (len (List.concat fs))
    in Hscan.
  split.
  - intros l Hl Hcut.
    pose proof (bytes_getitem_Returns_lt tail 1 l ltac:(lia) Hl) as Hlen.
    unfold to_list_loop, enough_fuel. rewrite length_app.
    replace (S (List.length (List.concat fs) + List.length tail))
      with (List.length fs
            + S (S (List.length (List.concat fs) + List.length tail
                    - List.length fs - 1)))%nat
      by (unfold len in Hlen; lia).
    rewrite Hscan by assumption. rewrite foldM_app.
    destruct (foldM _ (map Spec.frame_message fs) []) as [rows|e];
      cbn [bind foldM]; [ | reflexivity ].
    pose proof (len_nonneg (List.concat fs)).
    rewrite (scan_iteration _ _ _ (len (List.concat fs)) l).
    + replace (len (List.concat fs) + l + 1)
        with (len (List.concat fs) + (l + 1)) by lia.
      rewrite slice_app_mid by (apply bytes_getitem_range in Hl; lia).
      rewrite firstn_all2 by (unfold len in *; lia).
      destruct (process_message types tail rows) as [rows'|e];
        [ | reflexivity ].
      apply scan_exit. rewrite len_app. lia.
    + rewrite len_app. lia.
    + rewrite <- (app_nil_r tail).
      rewrite bytes_getitem_app_mid by lia. exact Hl.
  - intros Hlen.
    unfold to_list_loop, enough_fuel. rewrite length_app.
    replace (S (List.length (List.concat fs) + List.length tail))
      with (List.length fs
            + S (List.length (List.concat fs) + List.length tail
                 - List.length fs))%nat
      by lia.
    rewrite Hscan by assumption.
    destruct (foldM _ (map Spec.frame_message fs) []) as [rows|e];
      cbn [bind]; [ | reflexivity ].
    apply scan_header_missing; rewrite len_app; lia.
Qed.

(** [C9_truncated_frame_is_decoded] on a complete frame followed by a
    frame that announces eight bytes and has six. *)
Lemma C9_truncated_frame_is_decoded_witness :
  to_list_loop
    [x01; x05; x05; x00; x01; x2a; x36; x03; x07; x05; x00; x01; x2b]
    (Some [1; 2; 3])
  = Some (Returns [[PyInt 1; PyInt 5; PyFloat NAN; PyInt 42];
                   [PyInt 3; PyInt 5; PyFloat NAN; PyInt 43]]).
Proof.
  refine (proj1 (C9_truncated_frame_is_decoded
                   [[x01; x05; x05; x00; x01; x2a; x36]]
                   [x03; x07; x05; x00; x01; x2b] (Some [1; 2; 3]) _)
                7 eq_refl _).
  - repeat constructor.
  - vm_compute. reflexivity.
Defined.

(* ================================================================== *)
(** * Further properties of the parser *)
(* ================================================================== *)

(* ------------------------------------------------------------------ *)
(** ** Small buffers *)
(* ------------------------------------------------------------------ *)

(** X1: an empty file decodes to the empty list whatever the categories
    are, the missing filter of [processEvent = False] included; a file of
    one byte raises [IndexError] at the read of the length byte, whatever
    the byte and the categories are. *)
Theorem X1_empty_and_single_byte (processRead processWrite processEvent : bool) :
  to_list [] processRead processWrite processEvent = Some (Returns [])
  /\ (forall b : byte,
        to_list [b] processRead processWrite processEvent
        = Some (Raises IndexError)).
Proof.
  split.
  - reflexivity.
  - intros b. unfold to_list, to_list_loop, enough_fuel.
    apply scan_header_missing; rewrite len_cons; cbn; lia.
Qed.

(* ------------------------------------------------------------------ *)
(** ** Failures inside a retained frame *)
(* ------------------------------------------------------------------ *)

(** X2: a retained frame of fewer than five bytes raises [IndexError]:
    the address or the payload type byte is missing. *)
Theorem X2_short_frame_index_error
        (types : option (list Z)) (rows : list (list pyval))
        (b0 : byte) (rest : bytes) :
  py_in (int_of_byte b0) types = Returns true ->
  len rest < 4 ->
  process_message types (b0 :: rest) rows = Raises IndexError
  /\ (forall (data : bytes) (fuel : nat) (s l : Z),
        s < len data ->
        bytes_getitem data (s + 1) = Returns l ->
        slice data s (s + l + 1) = b0 :: rest ->
        scan data (process_message types) (S fuel) s rows
        = Some (Raises IndexError)).
Proof.
  intros Hin Hlen.
  assert (Hbody : process_message types (b0 :: rest) rows = Raises IndexError).
  { rewrite process_message_retained by assumption.
    unfold decode_message.
    destruct rest as [|b1 [|b2 [|b3 [|b4 rest]]]].
    - reflexivity.
    - reflexivity.
    - rewrite (bytes_getitem_nth _ 2 b2) by (reflexivity || lia). reflexivity.
    - rewrite (bytes_getitem_nth _ 2 b2) by (reflexivity || lia). reflexivity.
    - rewrite !len_cons in Hlen. pose proof (len_nonneg rest). lia. }
  split; [ exact Hbody | ].
  intros data fuel s l Hs Hl Hmsg.
  apply (scan_body_raises data _ fuel s l); [ assumption | assumption | ].
  now rewrite Hmsg.
Qed.

(** A read frame that announces two bytes. *)
Lemma X2_short_frame_index_error_witness :
  to_list [x01; x02; x05; x00] true true true = Some (Raises IndexError).
Proof.
  refine (proj2 (X2_short_frame_index_error (Some [1; 2; 3]) []
                   x01 [x02; x05] eq_refl _)
                [x01; x02; x05; x00] _ 0 2 eq_refl eq_refl eq_refl).
  vm_compute. reflexivity.
Defined.

(** X3: a retained frame whose payload type byte has a non-zero width
    field and a masked key outside [DATA_CHARS] raises [KeyError], whatever
    its payload is. *)
Theorem X3_unknown_type_key_error
        (types : option (list Z)) (rows : list (list pyval))
        (b0 b1 b2 b3 b4 : byte) (payload : bytes) :
  py_in (int_of_byte b0) types = Returns true ->
  Z.land (int_of_byte b4) 0x0F <> 0 ->
  ~ In (PayloadLookup.masked_key (int_of_byte b4))
       (map fst PayloadLookup.DATA_CHARS) ->
  process_message types (b0 :: b1 :: b2 :: b3 :: b4 :: payload) rows
  = Raises KeyError
  /\ (forall (data : bytes) (fuel : nat) (s l : Z),
        s < len data ->
        bytes_getitem data (s + 1) = Returns l ->
        slice data s (s + l + 1) = b0 :: b1 :: b2 :: b3 :: b4 :: payload ->
        scan data (process_message types) (S fuel) s rows
        = Some (Raises KeyError)).
Proof.
  intros Hin Hw Hkey.
  assert (Hget : PayloadLookup.get_data_char (int_of_byte b4) = Raises KeyError).
  { destruct b4; try reflexivity; exfalso; apply Hkey; vm_compute; tauto. }
  assert (Hbody : process_message types (b0 :: b1 :: b2 :: b3 :: b4 :: payload) rows
                  = Raises KeyError).
  { rewrite process_message_retained by assumption.
    now rewrite (decode_message_unknown_type _ b0 b1 b2 b3 b4 payload KeyError). }
  split; [ exact Hbody | ].
  intros data fuel s l Hs Hl Hmsg.
  apply (scan_body_raises data _ fuel s l); [ assumption | assumption | ].
  now rewrite Hmsg.
Qed.

(** A frame of payload type 0x48: float class, width 8. *)
Lemma X3_unknown_type_key_error_witness :
  to_list [x01; x0c; x05; x00; x48; x00; x00; x00; x00; x00; x00; x00; x00; x5a]
          true true true
  = Some (Raises KeyError).
Proof.
  refine (proj2 (X3_unknown_type_key_error (Some [1; 2; 3]) []
                   x01 x0c x05 x00 x48
                   [x00; x00; x00; x00; x00; x00; x00; x00] eq_refl _ _)
                [x01; x0c; x05; x00; x48;
                 x00; x00; x00; x00; x00; x00; x00; x00; x5a]
                _ 0 12 eq_refl eq_refl eq_refl).
  - vm_compute. discriminate.
  - vm_compute. intuition discriminate.
Defined.

(* ------------------------------------------------------------------ *)
(** ** What a decoded row looks like *)
(* ------------------------------------------------------------------ *)

Lemma length_unpack_codes_repeat (c : ascii) (w : Z) (n : nat) :
  code_size c = Some w ->
  forall buffer : bytes,
    List.length (unpack_codes (str_repeat (String c EmptyString) n) buffer) = n.
Proof.
  intros Hc. induction n as [|n IH]; intros buffer; [ reflexivity | ].
  cbn [str_repeat append unpack_codes]. rewrite Hc. cbn [List.length].
  now rewrite IH.
Qed.

(** X4: when the decoder returns a row for a frame, the width field of the
    payload type byte is not zero, the payload holds the timestamp prefix
    (6 bytes with bit 4 set, none otherwise) followed by a whole number of
    elements of that width, and the row has three fields plus one per
    element. *)
Theorem X4_decoded_row_length
        (message_type : Z) (b0 b1 b2 b3 b4 : byte) (payload : bytes)
        (row : list pyval) :
  decode_message message_type (b0 :: b1 :: b2 :: b3 :: b4 :: payload)
  = Returns row ->
  let w := Z.land (int_of_byte b4) 0x0F in
  let prefix := if Z.testbit (int_of_byte b4) 4 then 6 else 0 in
  0 < w
  /\ prefix <= len payload
  /\ (len payload - prefix) mod w = 0
  /\ len row = 3 + (len payload - prefix) / w.
Proof.
  intros H. cbv zeta. rewrite decode_message_header in H.
  unfold floordiv in H. change SIZE_MASK with 0x0F in H.
  destruct (Z.eqb_spec (Z.land (int_of_byte b4) 0x0F) 0) as [|Hw0];
    [ discriminate | ].
  cbn [bind] in H. unfold PayloadLookup.get_payload_string in H.
  destruct (PayloadLookup.get_data_char (int_of_byte b4)) as [s|e] eqn:Hget;
    [ | discriminate ].
  destruct (get_data_char_width b4 s Hget) as (c & -> & Hc & Hpos).
  cbn [bind] in H. rewrite has_timestamp_bit in H. unfold str_mul in H.
  set (w := Z.land (int_of_byte b4) 0x0F) in *.
  pose proof (len_nonneg payload) as Hlen.
  destruct (Z.testbit (int_of_byte b4) 4).
  - cbn [append bind struct_unpack calcsize code_size] in H.
    rewrite (calcsize_repeat c w Hc) in H. cbn [bind] in H.
    set (q := (len payload - 6) / w) in *.
    destruct (Z.eqb_spec (4 + (2 + w * Z.of_nat (Z.to_nat q))) (len payload))
      as [Hsize|]; [ | discriminate ].
    cbn [bind unpack_codes code_size] in H.
    match type of H with
    | context [getitem (?x :: ?y :: ?l) 0] =>
        rewrite (getitem_nth (x :: y :: l) 0 x ltac:(lia) eq_refl) in H;
        rewrite (getitem_nth (x :: y :: l) 1 y ltac:(lia) eq_refl) in H
    end.
    cbn [bind] in H.
    match type of H with
    | context [slice_from (?x :: ?y :: ?l) 2] =>
        change (slice_from (x :: y :: l) 2)
          with (slice_from ([x; y] ++ l) (len [x; y])) in H
    end.
    rewrite slice_from_app in H. injection H as <-.
    pose proof (Z.div_mod (len payload - 6) w Hw0) as Hdm.
    pose proof (Z.mod_pos_bound (len payload - 6) w Hpos) as Hmb.
    fold q in Hdm.
    assert (Hq : 0 <= q).
    { destruct (Z.le_gt_cases 0 q) as [|Hneg]; [ assumption | exfalso ].
      replace (Z.to_nat q) with 0%nat in Hsize by lia.
      assert (Hz : len payload - 6 = 0) by lia.
      unfold q in Hneg. rewrite Hz, Z.div_0_l in Hneg by lia. lia. }
    rewrite Z2Nat.id in Hsize by assumption.
    repeat split; try lia.
    unfold len. cbn [app List.length].
    rewrite (length_unpack_codes_repeat c w _ Hc). lia.
  - cbn [append bind struct_unpack] in H.
    rewrite (calcsize_repeat c w Hc) in H. cbn [bind] in H.
    rewrite Z.sub_0_r in *.
    set (q := len payload / w) in *.
    destruct (Z.eqb_spec (w * Z.of_nat (Z.to_nat q)) (len payload))
      as [Hsize|]; [ | discriminate ].
    cbn [bind] in H. injection H as <-.
    pose proof (Z.div_mod (len payload) w Hw0) as Hdm.
    pose proof (Z.mod_pos_bound (len payload) w Hpos) as Hmb.
    fold q in Hdm.
    assert (Hq : 0 <= q) by (apply Z.div_pos; lia).
    rewrite Z2Nat.id in Hsize by assumption.
    repeat split; try lia.
    unfold len. cbn [app List.length].
    rewrite (length_unpack_codes_repeat c w _ Hc). lia.
Qed.

(** A timestamped frame with two 16-bit elements. *)
Lemma X4_decoded_row_length_witness :
  len [PyInt 3; PyInt 5; PyFloat 0x1.000218def416cp+0%float; PyInt 258; PyInt 772]
  = 3 + (len [x01; x00; x00; x00; x01; x00; x02; x01; x04; x03] - 6) / 2.
Proof.
  exact (proj2 (proj2 (proj2
           (X4_decoded_row_length 3 x03 x0e x05 x00 x12
              [x01; x00; x00; x00; x01; x00; x02; x01; x04; x03] _ eq_refl)))).
Defined.

(* ------------------------------------------------------------------ *)
(** ** Invariants of the loop *)
(* ------------------------------------------------------------------ *)

(** What the body keeps, the loop keeps. *)
Lemma scan_invariant {A : Type} (data : bytes) (body : bytes -> A -> outcome A)
      (P : A -> Prop) :
  (forall message acc acc', P acc -> body message acc = Returns acc' -> P acc') ->
  forall (fuel : nat) (s : Z) (acc r : A),
    P acc -> scan data body fuel s acc = Some (Returns r) -> P r.
Proof.
  intros Hbody. induction fuel as [|fuel IH]; intros s acc r Hacc H;
    [ discriminate | ].
  cbn [scan] in H. destruct (s <? len data).
  - destruct (bytes_getitem data (s + 1)) as [l|e]; [ | discriminate ].
    destruct (body (slice data s (s + l + 1)) acc) as [acc'|e] eqn:Hb;
      [ | discriminate ].
    apply (IH (s + l + 1 + 1) acc'); [ | assumption ].
    exact (Hbody _ acc acc' Hacc Hb).
  - now injection H as <-.
Qed.

(** Two bodies that stay related keep the loops related, as long as the
    first one returns. *)
Lemma scan_simulation {A B : Type} (data : bytes)
      (body1 : bytes -> A -> outcome A) (body2 : bytes -> B -> outcome B)
      (R : A -> B -> Prop) :
  (forall message a b a',
      R a b -> body1 message a = Returns a' ->
      exists b', body2 message b = Returns b' /\ R a' b') ->
  forall (fuel : nat) (s : Z) (a : A) (b : B) (r : A),
    R a b ->
    scan data body1 fuel s a = Some (Returns r) ->
    exists r', scan data body2 fuel s b = Some (Returns r') /\ R r r'.
Proof.
  intros Hbody. induction fuel as [|fuel IH]; intros s a b r Hab H;
    [ discriminate | ].
  cbn [scan] in *. destruct (s <? len data).
  - destruct (bytes_getitem data (s + 1)) as [l|e]; [ | discriminate ].
    destruct (body1 (slice data s (s + l + 1)) a) as [a'|e] eqn:Hb;
      [ | discriminate ].
    destruct (Hbody _ a b a' Hab Hb) as (b' & -> & Hab').
    now apply (IH (s + l + 1 + 1) a' b').
  - injection H as <-. eauto.
Qed.

(** A decoded row starts with the message type, the address byte and a
    timestamp. *)
Lemma decode_message_row_shape (mt : Z) (message : bytes) (row : list pyval) :
  decode_message mt message = Returns row ->
  exists (a : Z) (ts : float) (elements : list pyval),
    row = PyInt mt :: PyInt a :: PyFloat ts :: elements /\ 0 <= a <= 255.
Proof.
  unfold decode_message.
  destruct (bytes_getitem message 2) as [a|e] eqn:Ha; [ | discriminate ].
  apply bytes_getitem_range in Ha. cbn [bind].
  repeat match goal with
         | |- context [bind ?c _] => destruct c; cbn [bind]; try discriminate
         | |- context [if ?b then _ else _] => destruct b
         end;
    intros [= <-]; cbn [app]; eauto 6.
Qed.

Lemma process_message_row_shape (types : list Z) (message : bytes)
      (acc acc' : list (list pyval)) :
  Forall (row_shape types) acc ->
  process_message (Some types) message acc = Returns acc' ->
  Forall (row_shape types) acc'.
Proof.
  intros Hacc. unfold process_message.
  destruct (bytes_getitem message 0) as [mt|e]; [ | discriminate ].
  cbn [bind py_in]. destruct (existsb (Z.eqb mt) types) eqn:Hin.
  - destruct (decode_message mt message) as [row|e] eqn:Hrow;
      [ | discriminate ].
    cbn [bind]. intros [= <-]. apply Forall_app. split; [ assumption | ].
    constructor; [ | constructor ].
    destruct (decode_message_row_shape _ _ _ Hrow) as (a & ts & els & -> & Ha).
    exists mt, a, ts, els. repeat split; try lia.
    apply existsb_exists in Hin. destruct Hin as (t & Ht & Heq).
    apply Z.eqb_eq in Heq. now subst.
  - now intros [= <-].
Qed.

(** X5: every row [to_list] returns has the shape
    [[message_type, address, timestamp, element...]] with an [int] message
    type that is one of the requested categories (1 with [processRead], 2
    with [processWrite], 3), an [int] address between 0 and 255 and a
    [float] timestamp. *)
Theorem X5_rows_have_shape
        (data : bytes) (processRead processWrite processEvent : bool)
        (rows : list (list pyval)) :
  to_list data processRead processWrite processEvent = Some (Returns rows) ->
  Forall (row_shape ((if processRead then [1] else [])
                       ++ (if processWrite then [2] else []) ++ [3])) rows.
Proof.
  unfold to_list, to_list_loop. destruct processEvent.
  - replace (unpack_message_types_to_process processRead processWrite true)
      with (Some ((if processRead then [1] else [])
                    ++ (if processWrite then [2] else []) ++ [3]))
      by (destruct processRead, processWrite; reflexivity).
    apply scan_invariant; [ | constructor ].
    intros message acc acc' Hacc Hb.
    now apply (process_message_row_shape _ message acc).
  - replace (unpack_message_types_to_process processRead processWrite false)
      with (@None (list Z)) by (destruct processRead, processWrite; reflexivity).
    intros H.
    assert (Hnil : rows = []).
    { revert H. apply (scan_invariant data _ (fun acc => acc = []));
        [ | reflexivity ].
      intros message acc acc' _. unfold process_message.
      destruct (bytes_getitem message 0); discriminate. }
    subst. constructor.
Qed.

(** The rows of a read frame and an event frame, with writes excluded. *)
Lemma X5_rows_have_shape_witness :
  Forall (row_shape [1; 3])
         [[PyInt 1; PyInt 5; PyFloat NAN; PyInt 42];
          [PyInt 3; PyInt 7; PyFloat NAN; PyInt (-1)]].
Proof.
  exact (X5_rows_have_shape
           [x01; x05; x05; x00; x01; x2a; x36;
            x02; x05; x06; x00; x01; x2b; x39;
            x03; x05; x07; x00; x81; xff; x8f]
           true false true _ eq_refl).
Defined.

(* ------------------------------------------------------------------ *)
(** ** Filtering while decoding and filtering afterwards *)
(* ------------------------------------------------------------------ *)

Lemma row_in_decoded (types : list Z) (mt : Z) (message : bytes)
      (row : list pyval) :
  decode_message mt message = Returns row ->
  row_in types row = existsb (Z.eqb mt) types.
Proof.
  intros H. destruct (decode_message_row_shape _ _ _ H) as (a & ts & els & -> & _).
  reflexivity.
Qed.

Lemma process_message_narrow (types types' : list Z) (message : bytes)
      (acc acc' : list (list pyval)) :
  (forall t, In t types -> In t types') ->
  process_message (Some types') message acc = Returns acc' ->
  process_message (Some types) message (filter (row_in types) acc)
  = Returns (filter (row_in types) acc').
Proof.
  intros Hsub. unfold process_message.
  destruct (bytes_getitem message 0) as [mt|e]; [ | discriminate ].
  cbn [bind py_in].
  destruct (existsb (Z.eqb mt) types') eqn:Hin'.
  - destruct (decode_message mt message) as [row|e] eqn:Hrow;
      [ | discriminate ].
    cbn [bind]. intros [= <-]. rewrite filter_app. cbn [filter].
    rewrite (row_in_decoded types mt message row Hrow).
    destruct (existsb (Z.eqb mt) types); cbn [bind].
    + reflexivity.
    + now rewrite app_nil_r.
  - intros [= <-].
    destruct (existsb (Z.eqb mt) types) eqn:Hin; [ | reflexivity ].
    apply existsb_exists in Hin. destruct Hin as (t & Ht & Heq).
    assert (existsb (Z.eqb mt) types' = true)
      by (apply existsb_exists; exists t; auto).
    congruence.
Qed.

(** X6: when decoding with all three categories returns, decoding with
    any selection that includes events returns the rows of that result
    whose message type is selected, in the same order: excluding a category
    while decoding is the same as removing its rows afterwards. *)
Theorem X6_filter_commutes
        (data : bytes) (processRead processWrite : bool)
        (rows : list (list pyval)) :
  to_list data true true true = Some (Returns rows) ->
  to_list data processRead processWrite true
  = Some (Returns
            (filter (row_in ((if processRead then [1] else [])
                               ++ (if processWrite then [2] else []) ++ [3]))
                    rows)).
Proof.
  unfold to_list, to_list_loop.
  replace (unpack_message_types_to_process processRead processWrite true)
    with (Some ((if processRead then [1] else [])
                  ++ (if processWrite then [2] else []) ++ [3]))
    by (destruct processRead, processWrite; reflexivity).
  cbn [unpack_message_types_to_process app].
  set (types := (if processRead then [1] else [])
                  ++ (if processWrite then [2] else []) ++ [3]).
  intros H.
  destruct (scan_simulation data
              (process_message (Some [1; 2; 3])) (process_message (Some types))
              (fun a b => b = filter (row_in types) a)) with
    (fuel := enough_fuel data) (s := 0) (a := @nil (list pyval))
    (b := @nil (list pyval)) (r := rows) as (r' & Hr' & ->).
  - intros message a b a' -> Hb. eexists. split; [ | reflexivity ].
    apply (process_message_narrow types [1; 2; 3]); [ | assumption ].
    intros t Ht. subst types. destruct processRead, processWrite;
      cbn in Ht |- *; tauto.
  - reflexivity.
  - assumption.
  - exact Hr'.
Qed.

(** Three frames, decoded without the write category. *)
Lemma X6_filter_commutes_witness :
  to_list [x01; x05; x05; x00; x01; x2a; x36;
           x02; x05; x06; x00; x01; x2b; x39;
           x03; x05; x07; x00; x81; xff; x8f] true false true
  = Some (Returns [[PyInt 1; PyInt 5; PyFloat NAN; PyInt 42];
                   [PyInt 3; PyInt 7; PyFloat NAN; PyInt (-1)]]).
Proof.
  exact (X6_filter_commutes
           [x01; x05; x05; x00; x01; x2a; x36;
            x02; x05; x06; x00; x01; x2b; x39;
            x03; x05; x07; x00; x81; xff; x8f]
           true false
           [[PyInt 1; PyInt 5; PyFloat NAN; PyInt 42];
            [PyInt 2; PyInt 6; PyFloat NAN; PyInt 43];
            [PyInt 3; PyInt 7; PyFloat NAN; PyInt (-1)]] eq_refl).
Defined.

(* ------------------------------------------------------------------ *)
(** ** Decoding a buffer in two parts *)
(* ------------------------------------------------------------------ *)

Lemma getitem_app_shift {A : Type} (pre l : list A) (i : Z) :
  0 <= i -> getitem (pre ++ l) (len pre + i) = getitem l i.
Proof.
  intros Hi. pose proof (len_nonneg pre).
  rewrite !getitem_nonneg by lia.
  rewrite nth_error_app2 by (unfold len; lia).
  now replace (Z.to_nat (len pre + i) - List.length pre)%nat with (Z.to_nat i)
    by (unfold len; lia).
Qed.

Lemma slice_app_shift {A : Type} (pre l : list A) (a b : Z) :
  0 <= a -> 0 <= b ->
  slice (pre ++ l) (len pre + a) (len pre + b) = slice l a b.
Proof.
  intros Ha Hb. unfold slice, clamp_index. rewrite len_app.
  pose proof (len_nonneg pre). pose proof (len_nonneg l).
  destruct (Z.ltb_spec (len pre + a) 0); [ lia | ].
  destruct (Z.ltb_spec (len pre + b) 0); [ lia | ].
  destruct (Z.ltb_spec a 0); [ lia | ].
  destruct (Z.ltb_spec b 0); [ lia | ].
  replace (Z.min (len pre + a) (len pre + len l))
    with (len pre + Z.min a (len l)) by lia.
  replace (Z.min (len pre + b) (len pre + len l))
    with (len pre + Z.min b (len l)) by lia.
  replace (Z.to_nat (len pre + Z.min a (len l)))
    with (List.length pre + Z.to_nat (Z.min a (len l)))%nat
    by (unfold len; lia).
  rewrite skipn_app, skipn_all2 by lia. cbn [app].
  f_equal; [ lia | f_equal; lia ].
Qed.

Section ScanParts.

Context {A : Type}.
Variable body : bytes -> A -> outcome A.

(** The loop only looks at the bytes from its cursor on. *)
Lemma scan_shift (pre rest : bytes) :
  forall (fuel : nat) (s : Z) (acc : A),
    0 <= s ->
    scan (pre ++ rest) body fuel (len pre + s) acc = scan rest body fuel s acc.
Proof.
  induction fuel as [|fuel IH]; intros s acc Hs; [ reflexivity | ].
  cbn [scan]. rewrite len_app.
  replace (len pre + s <? len pre + len rest) with (s <? len rest)
    by (destruct (Z.ltb_spec s (len rest)),
                 (Z.ltb_spec (len pre + s) (len pre + len rest)); lia).
  destruct (s <? len rest); [ | reflexivity ].
  unfold bytes_getitem.
  replace (len pre + s + 1) with (len pre + (s + 1)) by lia.
  rewrite getitem_app_shift by lia.
  destruct (getitem rest (s + 1)) as [b|e]; cbn [bind]; [ | reflexivity ].
  pose proof (int_of_byte_range b).
  replace (len pre + s + int_of_byte b + 1)
    with (len pre + (s + int_of_byte b + 1)) by lia.
  rewrite slice_app_shift by lia.
  destruct (body _ acc) as [acc'|e]; [ | reflexivity ].
  replace (len pre + (s + int_of_byte b + 1) + 1)
    with (len pre + (s + int_of_byte b + 1 + 1)) by lia.
  apply IH. lia.
Qed.

(** More iterations allowed than needed change nothing. *)
Lemma scan_fuel_mono (data : bytes) :
  forall (fuel : nat) (s : Z) (acc : A) (r : outcome A),
    scan data body fuel s acc = Some r ->
    forall fuel' : nat, (fuel <= fuel')%nat ->
                        scan data body fuel' s acc = Some r.
Proof.
  induction fuel as [|fuel IH]; intros s acc r H fuel' Hle; [ discriminate | ].
  destruct fuel' as [|fuel']; [ lia | ].
  cbn [scan] in *. destruct (s <? len data); [ | assumption ].
  destruct (bytes_getitem data (s + 1)) as [l|e]; [ | assumption ].
  destruct (body _ acc) as [acc'|e]; [ | assumption ].
  apply (IH _ _ _ H). lia.
Qed.

End ScanParts.

Lemma process_message_prefix (types : option (list Z)) (message : bytes)
      (acc0 acc : list (list pyval)) :
  process_message types message (acc0 ++ acc) =
    match process_message types message acc with
    | Returns r => Returns (acc0 ++ r)
    | Raises e => Raises e
    end.
Proof.
  unfold process_message.
  destruct (bytes_getitem message 0) as [mt|e]; [ | reflexivity ].
  cbn [bind]. destruct (py_in mt types) as [[]|e]; cbn [bind];
    [ | reflexivity | reflexivity ].
  destruct (decode_message mt message); cbn [bind]; [ | reflexivity ].
  now rewrite app_assoc.
Qed.

(** Rows already collected are carried along untouched. *)
Lemma scan_prefix (data : bytes) (types : option (list Z))
      (acc0 : list (list pyval)) :
  forall (fuel : nat) (s : Z) (acc : list (list pyval)),
    scan data (process_message types) fuel s (acc0 ++ acc) =
      match scan data (process_message types) fuel s acc with
      | Some (Returns r) => Some (Returns (acc0 ++ r))
      | Some (Raises e) => Some (Raises e)
      | None => None
      end.
Proof.
  induction fuel as [|fuel IH]; intros s acc; [ reflexivity | ].
  cbn [scan]. destruct (s <? len data); [ | reflexivity ].
  destruct (bytes_getitem data (s + 1)) as [l|e]; [ | reflexivity ].
  rewrite process_message_prefix.
  destruct (process_message types _ acc) as [acc'|e]; [ | reflexivity ].
  apply IH.
Qed.

(** X7: decoding is compositional over complete frames: when a buffer
    starts with a run of frames whose length byte counts the bytes after
    it and that run decodes to [rows1], the decode of the whole buffer is
    [rows1] followed by the rows of the rest decoded on its own, or the
    exception the rest raises. *)
Theorem X7_decode_concatenation
        (fs : list bytes) (rest : bytes) (types : option (list Z))
        (rows1 : list (list pyval)) (o2 : outcome (list (list pyval))) :
  Forall Spec.framed fs ->
  to_list_loop (List.concat fs) types = Some (Returns rows1) ->
  to_list_loop rest types = Some o2 ->
  to_list_loop (List.concat fs ++ rest) types
  = Some (match o2 with
          | Returns rows2 => Returns (rows1 ++ rows2)
          | Raises e => Raises e
          end).
Proof.
  intros Hfs H1 H2.
  rewrite to_list_loop_framed in H1 by assumption. injection H1 as H1.
  pose proof (length_concat_framed fs Hfs) as Hle.
  unfold to_list_loop, enough_fuel in *. rewrite length_app.
  replace (S (List.length (List.concat fs) + List.length rest))
    with (List.length fs
          + (S (List.length (List.concat fs) + List.length rest)
             - List.length fs))%nat by lia.
  pose proof (scan_framed (process_message types) rest fs []) as Hscan.
  cbn [app len List.length Z.of_nat Z.add] in Hscan.
  rewrite Hscan by assumption. rewrite H1.
  change (Z.of_nat (List.length (List.concat fs))) with (len (List.concat fs)).
  rewrite <- (Z.add_0_r (len (List.concat fs))).
  rewrite scan_shift by lia.
  rewrite <- (app_nil_r rows1) at 1. rewrite scan_prefix.
  rewrite (scan_fuel_mono _ rest _ _ _ _ H2) by lia.
  destruct o2; reflexivity.
Qed.

(** A read frame followed by an event frame. *)
Lemma X7_decode_concatenation_witness :
  to_list_loop [x01; x05; x05; x00; x01; x2a; x36;
                x03; x05; x07; x00; x81; xff; x8f] (Some [1; 2; 3])
  = Some (Returns [[PyInt 1; PyInt 5; PyFloat NAN; PyInt 42];
                   [PyInt 3; PyInt 7; PyFloat NAN; PyInt (-1)]]).
Proof.
  refine (X7_decode_concatenation
            [[x01; x05; x05; x00; x01; x2a; x36]]
            [x03; x05; x07; x00; x81; xff; x8f] (Some [1; 2; 3])
            [[PyInt 1; PyInt 5; PyFloat NAN; PyInt 42]]
            (Returns [[PyInt 3; PyInt 7; PyFloat NAN; PyInt (-1)]])
            _ eq_refl eq_refl).
  repeat constructor.
Defined.

(** X8: an exception in a frame is the outcome of the whole call: when a
    run of complete frames makes the decode raise, the decode of any buffer
    that starts with this run raises the same exception, whatever follows,
    and returns none of the rows decoded before. *)
Theorem X8_first_failure_aborts
        (fs : list bytes) (types : option (list Z)) (e : exn) :
  Forall Spec.framed fs ->
  to_list_loop (List.concat fs) types = Some (Raises e) ->
  forall rest : bytes,
    to_list_loop (List.concat fs ++ rest) types = Some (Raises e).
Proof.
  intros Hfs H1 rest.
  rewrite to_list_loop_framed in H1 by assumption. injection H1 as H1.
  pose proof (length_concat_framed fs Hfs) as Hle.
  unfold to_list_loop, enough_fuel. rewrite length_app.
  replace (S (List.length (List.concat fs) + List.length rest))
    with (List.length fs
          + (S (List.length (List.concat fs) + List.length rest)
             - List.length fs))%nat by lia.
  pose proof (scan_framed (process_message types) rest fs []) as Hscan.
  cbn [app len List.length Z.of_nat Z.add] in Hscan.
  rewrite Hscan by assumption. now rewrite H1.
Qed.

(** A good frame, a frame with a zero width field, and one more good
    frame. *)
Lemma X8_first_failure_aborts_witness :
  to_list_loop [x01; x05; x05; x00; x01; x2a; x36;
                x01; x05; x05; x00; x40; x2a; x75;
                x03; x05; x07; x00; x81; xff; x8f] (Some [1; 2; 3])
  = Some (Raises ZeroDivisionError).
Proof.
  refine (X8_first_failure_aborts
            [[x01; x05; x05; x00; x01; x2a; x36];
             [x01; x05; x05; x00; x40; x2a; x75]]
            (Some [1; 2; 3]) ZeroDivisionError _ eq_refl
            [x03; x05; x07; x00; x81; xff; x8f]).
  repeat constructor.
Defined.

(* ------------------------------------------------------------------ *)
(** ** The format resolver *)
(* ------------------------------------------------------------------ *)

Lemma masked_key_flag_bits (pt : byte) :
  PayloadLookup.masked_key (Z.land (int_of_byte pt) 0xCF)
  = PayloadLookup.masked_key (int_of_byte pt).
Proof. destruct pt; reflexivity. Qed.

(** X9: bits 4 and 5 of the payload type byte play no part in the choice
    of the element type: two type bytes that agree on the other six bits
    get the same format character or the same [KeyError], and, for the same
    flag and count, the same format string. *)
Theorem X9_lookup_ignores_flag_bits (pt pt' : byte) :
  Z.land (int_of_byte pt) 0xCF = Z.land (int_of_byte pt') 0xCF ->
  PayloadLookup.get_data_char (int_of_byte pt)
  = PayloadLookup.get_data_char (int_of_byte pt')
  /\ (forall has_timestamp count : Z,
        PayloadLookup.get_payload_string has_timestamp count (int_of_byte pt)
        = PayloadLookup.get_payload_string has_timestamp count (int_of_byte pt')).
Proof.
  intros H.
  assert (Hget : PayloadLookup.get_data_char (int_of_byte pt)
                 = PayloadLookup.get_data_char (int_of_byte pt')).
  { unfold PayloadLookup.get_data_char.
    rewrite <- (masked_key_flag_bits pt), <- (masked_key_flag_bits pt').
    now rewrite H. }
  split; [ exact Hget | ].
  intros ts count. unfold PayloadLookup.get_payload_string. now rewrite Hget.
Qed.

(** Signed 16-bit, with and without the timestamp flag. *)
Lemma X9_lookup_ignores_flag_bits_witness :
  PayloadLookup.get_data_char (int_of_byte x92)
  = PayloadLookup.get_data_char (int_of_byte x82).
Proof.
  exact (proj1 (X9_lookup_ignores_flag_bits x92 x82 eq_refl)).
Defined.



(* ------------------------------------------------------------------ *)
(** ** Bytes the parser never reads *)
(* ------------------------------------------------------------------ *)

(** X11: the length byte and the port byte of a frame play no part in the
    decoding of the frame, and the last byte of a complete frame (the
    checksum) is never read at all: two buffers of complete frames that
    differ only in the last byte of some frames decode to the same
    result. *)
Theorem X11_unread_bytes :
  (forall (types : option (list Z)) (rows : list (list pyval))
          (b0 b1 b1' b2 b3 b3' b4 : byte) (payload : bytes),
      process_message types (b0 :: b1 :: b2 :: b3 :: b4 :: payload) rows
      = process_message types (b0 :: b1' :: b2 :: b3' :: b4 :: payload) rows)
  /\ (forall (fs fs' : list bytes) (types : option (list Z)),
        Forall Spec.framed fs ->
        Forall Spec.framed fs' ->
        map Spec.frame_message fs = map Spec.frame_message fs' ->
        to_list_loop (List.concat fs) types
        = to_list_loop (List.concat fs') types).
Proof.
  split.
  - intros types rows b0 b1 b1' b2 b3 b3' b4 payload.
    unfold process_message.
    rewrite !(bytes_getitem_nth _ 0 b0) by (reflexivity || lia).
    cbn [bind]. destruct (py_in (int_of_byte b0) types) as [[]|e];
      cbn [bind]; try reflexivity.
    now rewrite !decode_message_header.
  - intros fs fs' types Hfs Hfs' Heq.
    rewrite !to_list_loop_framed by assumption. now rewrite Heq.
Qed.

(** The same frame with two different last bytes. *)
Lemma X11_unread_bytes_witness :
  to_list_loop [x01; x05; x05; x00; x01; x2a; x36] (Some [1; 2; 3])
  = to_list_loop [x01; x05; x05; x00; x01; x2a; xff] (Some [1; 2; 3]).
Proof.
  refine (proj2 X11_unread_bytes
            [[x01; x05; x05; x00; x01; x2a; x36]]
            [[x01; x05; x05; x00; x01; x2a; xff]]
            (Some [1; 2; 3]) _ _ eq_refl); repeat constructor.
Defined.

(* ------------------------------------------------------------------ *)
(** ** The split of rows in [to_dataframe] *)
(* ------------------------------------------------------------------ *)

Lemma to_list_loop_rows_shape (data : bytes) (types : list Z)
      (rows : list (list pyval)) :
  to_list_loop data (Some types) = Some (Returns rows) ->
  Forall (row_shape types) rows.
Proof.
  unfold to_list_loop. apply scan_invariant; [ | constructor ].
  intros message acc acc' Hacc Hb.
  now apply (process_message_row_shape _ message acc).
Qed.

Lemma to_list_loop_None_rows (data : bytes) (rows : list (list pyval)) :
  to_list_loop data None = Some (Returns rows) -> rows = [].
Proof.
  unfold to_list_loop.
  apply (scan_invariant data _ (fun acc => acc = [])); [ | reflexivity ].
  intros message acc acc' _. unfold process_message.
  destruct (bytes_getitem message 0); discriminate.
Qed.

(** [row[3:] if len(row) > 3 else []] is [row[3:]] on every row. *)
Lemma payload_of_row (row : list pyval) :
  (if len row >? 3 then slice_from row 3 else []) = skipn 3 row.
Proof.
  pose proof (len_nonneg row). rewrite Z.gtb_ltb.
  destruct (Z.ltb_spec 3 (len row)).
  - unfold slice_from, clamp_index. cbn [Z.ltb Z.compare].
    now rewrite Z.min_l by lia.
  - symmetry. apply skipn_all2. unfold len in *. lia.
Qed.

(** X12: on the rows [to_list] returns, the split made by [to_dataframe]
    never falls back to [[None]*3]: every row gives its first three fields
    (message type, address, timestamp) to the message columns and all its
    elements to the payload, so that message and payload put together are
    the row again. *)
Theorem X12_dataframe_split
        (data : bytes) (processRead processWrite processEvent : bool)
        (rows : list (list pyval)) :
  to_list data processRead processWrite processEvent = Some (Returns rows) ->
  to_dataframe_messages rows = map (fun row => map Some (firstn 3 row)) rows
  /\ Forall (fun message => len message = 3 /\ ~ In None message)
            (to_dataframe_messages rows)
  /\ to_dataframe_payloads rows = map (skipn 3) rows
  /\ map (fun mp => fst mp ++ map Some (snd mp))
         (combine (to_dataframe_messages rows) (to_dataframe_payloads rows))
     = map (map Some) rows.
Proof.
  intros H.
  assert (Hshape : exists types, Forall (row_shape types) rows).
  { unfold to_list in H.
    destruct (unpack_message_types_to_process
                processRead processWrite processEvent) as [types|].
    - exists types. now apply (to_list_loop_rows_shape data).
    - exists []. apply to_list_loop_None_rows in H. subst. constructor. }
  destruct Hshape as (types & Hshape). clear H.
  assert (Hm : to_dataframe_messages rows
               = map (fun row => map Some (firstn 3 row)) rows).
  { unfold to_dataframe_messages. apply map_ext_Forall.
    eapply Forall_impl; [ | exact Hshape ].
    intros row (t & a & ts & els & -> & _).
    rewrite !len_cons. pose proof (len_nonneg els).
    rewrite Z.geb_leb.
    destruct (Z.leb_spec 3 (1 + (1 + (1 + len els)))); [ | lia ].
    change (PyInt t :: PyInt a :: PyFloat ts :: els)
      with ([] ++ [PyInt t; PyInt a; PyFloat ts] ++ els).
    change 0 with (len (@nil pyval)) at 1.
    replace 3 with (len (@nil pyval) + 3) at 1 by reflexivity.
    now rewrite slice_app_mid by lia. }
  assert (Hp : to_dataframe_payloads rows = map (skipn 3) rows).
  { unfold to_dataframe_payloads. apply map_ext. apply payload_of_row. }
  split; [ exact Hm | split; [ | split; [ exact Hp | ] ] ].
  - rewrite Hm. apply Forall_map.
    eapply Forall_impl; [ | exact Hshape ].
    intros row (t & a & ts & els & -> & _). split; [ reflexivity | ].
    cbn. intuition discriminate.
  - rewrite Hm, Hp. clear. induction rows as [|row rows IH]; [ reflexivity | ].
    cbn [map combine fst snd]. rewrite IH. f_equal.
    now rewrite <- map_app, firstn_skipn.
Qed.

(** The split of the rows of a timestamped frame and of a frame without
    elements. *)
Lemma X12_dataframe_split_witness :
  to_dataframe_messages
    [[PyInt 3; PyInt 5; PyFloat 0x1.000218def416cp+0%float; PyInt 258];
     [PyInt 1; PyInt 5; PyFloat NAN]]
  = [[Some (PyInt 3); Some (PyInt 5);
      Some (PyFloat 0x1.000218def416cp+0%float)];
     [Some (PyInt 1); Some (PyInt 5); Some (PyFloat NAN)]].
Proof.
  exact (proj1 (X12_dataframe_split
                  [x03; x0c; x05; x00; x12;
                   x01; x00; x00; x00; x01; x00; x02; x01; x99;
                   x01; x04; x05; x00; x01; x0b]
                  true true true _ eq_refl)).
Defined.

(* ------------------------------------------------------------------ *)
(** ** Range of the decoded elements *)
(* ------------------------------------------------------------------ *)

(** X13: an element decoded for a payload type of the table fits the type
    the byte declares: with bit 7 clear and bit 6 clear it is an [int] in
    [0, 2^(8w)), with bit 7 set an [int] in [-2^(8w-1), 2^(8w-1)), where
    [w] is the width field, and a [float] only for the key 0x44. *)
Theorem X13_element_range (pt : byte) (c : ascii) (chunk : bytes) :
  PayloadLookup.get_data_char (int_of_byte pt) = Returns (String c EmptyString) ->
  len chunk = Z.land (int_of_byte pt) 0x0F ->
  match unpack_code c chunk with
  | PyInt z =>
      if Z.testbit (int_of_byte pt) 7
      then - 2 ^ (8 * len chunk - 1) <= z < 2 ^ (8 * len chunk - 1)
      else 0 <= z < 2 ^ (8 * len chunk)
  | PyFloat _ => PayloadLookup.masked_key (int_of_byte pt) = 0x44
  end.
Proof.
  intros Hget Hlen. pose proof (le_uint_range chunk) as Hr.
  destruct pt; vm_compute in Hget; try discriminate Hget;
    injection Hget as <-;
    unfold unpack_code, to_signed; cbn [code_float code_signed];
    rewrite Hlen in *; cbn in Hr |- *;
    try reflexivity; try lia;
    match goal with
    | |- context [le_uint chunk <? ?k] =>
        destruct (Z.ltb_spec (le_uint chunk) k); lia
    end.
Qed.

(** The signed byte 0xFF is -1. *)
Lemma X13_element_range_witness :
  - 2 ^ (8 * 1 - 1) <= -1 < 2 ^ (8 * 1 - 1).
Proof.
  exact (X13_element_range x81 "b"%char [xff] eq_refl eq_refl).
Defined.
